(** * Verification of [scripts/verify_authorization.py]

    A shallow embedding of the authorization verification harness of the
    PCF API ([AuthorizationVerifier], [main]) and proofs about the verdicts
    it produces.

    The harness is sequential Python: it mutates [self.results], talks to
    the network through [requests.post], and catches every [Exception]
    inside each probe.  It is embedded in a state-and-exception monad over
    a process state; the network is an oracle that decides the outcome of
    each request. *)

From Stdlib Require Import String Ascii ZArith List Bool Lia Arith.
From Stdlib Require Import DecimalString.
From Stdlib Require Import QArith_base.
Import ListNotations.

Local Open Scope string_scope.
Local Open Scope Z_scope.

(* ================================================================== *)
(** * Text *)

(** A Python [str] is carried as a Rocq [string] holding its UTF-8
    encoding.  Concatenation, equality and the substring test with an ASCII
    needle commute with the encoding.  The operations of [str] that consult
    the Unicode database are gathered in [PyText] below. *)

Definition dq : string := String (ascii_of_nat 34) EmptyString.
Definition nl : string := String (ascii_of_nat 10) EmptyString.

(** [s * n] on strings. *)
Fixpoint repeat_str (s : string) (n : nat) : string :=
  match n with
  | O => ""
  | S n' => s ++ repeat_str s n'
  end.

(** [needle in hay] for two strings. *)
Fixpoint contains (needle hay : string) : bool :=
  String.prefix needle hay ||
  match hay with
  | EmptyString => false
  | String _ rest => contains needle rest
  end.

(** [", ".join(parts)] *)
Fixpoint join (sep : string) (parts : list string) : string :=
  match parts with
  | [] => ""
  | [p] => p
  | p :: rest => p ++ sep ++ join sep rest
  end.

(** [str(n)] for an [int]. *)
Definition str_of_Z (z : Z) : string := NilZero.string_of_int (Z.to_int z).
Definition str_of_nat (n : nat) : string := str_of_Z (Z.of_nat n).

(** What [str] needs from the Unicode database, which is not part of the
    repository: [str.lower()], [repr] of a [str], and the characters that
    iterating over a [str] yields. *)
Class PyText := {
  str_lower : string -> string;
  str_repr : string -> string;
  str_chars : string -> list string
}.

(** ** The ASCII instance, exact on ASCII text *)

Definition ascii_lower_char (c : ascii) : ascii :=
  let n := nat_of_ascii c in
  if (65 <=? n)%nat && (n <=? 90)%nat then ascii_of_nat (n + 32) else c.

Fixpoint ascii_lower (s : string) : string :=
  match s with
  | EmptyString => EmptyString
  | String c rest => String (ascii_lower_char c) (ascii_lower rest)
  end.

Definition hex_digit (n : nat) : ascii :=
  if (n <? 10)%nat then ascii_of_nat (48 + n) else ascii_of_nat (87 + n).

Definition escape_char (quote c : ascii) : string :=
  let n := nat_of_ascii c in
  if Ascii.eqb c "\" then "\\"
  else if Ascii.eqb c quote then String "\" (String c "")
  else if (n =? 10)%nat then "\n"
  else if (n =? 13)%nat then "\r"
  else if (n =? 9)%nat then "\t"
  else if (n <? 32)%nat || (n =? 127)%nat
       then "\x" ++ String (hex_digit (n / 16)) (String (hex_digit (n mod 16)) "")
  else String c "".

Fixpoint escape_all (quote : ascii) (s : string) : string :=
  match s with
  | EmptyString => ""
  | String c rest => escape_char quote c ++ escape_all quote rest
  end.

(** [repr(s)]: single quotes, unless [s] has a single quote and no double
    quote. *)
Definition ascii_repr (s : string) : string :=
  let quote : ascii :=
    if contains "'" s && negb (contains dq s) then ascii_of_nat 34 else "'"%char in
  String quote (escape_all quote s) ++ String quote "".

Fixpoint ascii_chars (s : string) : list string :=
  match s with
  | EmptyString => []
  | String c rest => String c "" :: ascii_chars rest
  end.

Definition ascii_text : PyText :=
  {| str_lower := ascii_lower; str_repr := ascii_repr; str_chars := ascii_chars |}.

(* ================================================================== *)
(** * Exceptions and results *)

(** A raised exception: its class and [str(e)].  Every exception of the
    model derives from [Exception], as every error of [requests], [json]
    and the built-in operations used here does. *)
Record PyExc := { exc_class : string; exc_text : string }.

Inductive Result (A : Type) : Type :=
| Ok (a : A)
| Raise (e : PyExc).
Arguments Ok {A} a.
Arguments Raise {A} e.

Definition TypeError (msg : string) : PyExc :=
  {| exc_class := "TypeError"; exc_text := msg |}.
Definition KeyError (key : string) : PyExc :=
  {| exc_class := "KeyError"; exc_text := "'" ++ key ++ "'" |}.

(* ================================================================== *)
(** * JSON documents as Python objects *)

(** What [response.json()] returns.  A [float] is carried by the text
    [repr] gives for it; the program does no arithmetic on it. *)
#[local] Set Warnings "-register-all".
Inductive json : Type :=
| JNull
| JBool (b : bool)
| JInt (z : Z)
| JFloat (text : string)
| JStr (s : string)
| JList (items : list json)
| JDict (members : list (string * json)).

(** The name of the Python type, as it appears in error messages. *)
Definition type_name (j : json) : string :=
  match j with
  | JNull => "NoneType"
  | JBool _ => "bool"
  | JInt _ => "int"
  | JFloat _ => "float"
  | JStr _ => "str"
  | JList _ => "list"
  | JDict _ => "dict"
  end.

(** [d.get(key)] on the members of a [dict], in insertion order.  The keys
    of a [dict] are distinct, so the first binding is the binding. *)
Fixpoint dict_get (key : string) (members : list (string * json)) : option json :=
  match members with
  | [] => None
  | (k, v) :: rest => if String.eqb k key then Some v else dict_get key rest
  end.

Definition is_str (s : string) (j : json) : bool :=
  match j with
  | JStr t => String.eqb t s
  | _ => false
  end.

(** [key in container], with a string on the left: key membership for a
    [dict], element equality for a [list], substring for a [str]; the other
    types are not containers.  The texts of the [TypeError]s here and below
    are those of CPython 3.11 to 3.13. *)
Definition py_in (key : string) (container : json) : Result bool :=
  match container with
  | JDict members =>
      Ok (match dict_get key members with Some _ => true | None => false end)
  | JList items => Ok (existsb (is_str key) items)
  | JStr s => Ok (contains key s)
  | other =>
      Raise (TypeError ("argument of type '" ++ type_name other ++ "' is not iterable"))
  end.

(** [container[key]], with a string key. *)
Definition py_getitem (container : json) (key : string) : Result json :=
  match container with
  | JDict members =>
      match dict_get key members with
      | Some v => Ok v
      | None => Raise (KeyError key)
      end
  | JList _ => Raise (TypeError "list indices must be integers or slices, not str")
  | JStr _ => Raise (TypeError "string indices must be integers, not 'str'")
  | other =>
      Raise (TypeError ("'" ++ type_name other ++ "' object is not subscriptable"))
  end.

Section Text.
Context {text : PyText}.

(** [for x in value]: the elements of a [list], the keys of a [dict], the
    characters of a [str]. *)
Definition py_iter (value : json) : Result (list json) :=
  match value with
  | JList items => Ok items
  | JDict members => Ok (map (fun kv => JStr (fst kv)) members)
  | JStr s => Ok (map JStr (str_chars s))
  | other =>
      Raise (TypeError ("'" ++ type_name other ++ "' object is not iterable"))
  end.

(** [repr(value)] *)
Fixpoint py_repr (value : json) : string :=
  match value with
  | JNull => "None"
  | JBool true => "True"
  | JBool false => "False"
  | JInt z => str_of_Z z
  | JFloat t => t
  | JStr s => str_repr s
  | JList items => "[" ++ join ", " (map py_repr items) ++ "]"
  | JDict members =>
      "{" ++ join ", "
               (map (fun kv => match kv with
                               | (k, v) => str_repr k ++ ": " ++ py_repr v
                               end) members)
          ++ "}"
  end.

(** [str(value)] *)
Definition py_str (value : json) : string :=
  match value with
  | JStr s => s
  | _ => py_repr value
  end.
End Text.

(* ================================================================== *)
(** * The network *)

(** The arguments of one [requests.post] call: the URL, the GraphQL
    document sent as [json={"query": ...}], and the timeout. *)
Record Request := {
  req_url : string;
  req_query : string;
  req_timeout : Q
}.

(** A response; [json_] is what calling [response.json()] does, a document
    or the decoding error raised for a body that is not JSON. *)
Record Response := {
  status_code : Z;
  json_ : Result json
}.

(** The target, as the harness sees it: the outcome of the [n]-th
    [requests.post] call of the process, a response or a raised transport
    error (connection refused, timeout, TLS failure, ...). *)
Definition World := nat -> Request -> Result Response.

(* ================================================================== *)
(** * The verifier object and the process state *)

Record TestResult := {
  name : string;
  passed : bool;
  message : string;
  response_code : option Z
}.

Record AuthorizationVerifier := {
  host : string;
  base_url : string;
  timeout : Q;
  results : list TestResult
}.

(** The process: the verifier object, the number of requests issued so
    far, and the lines printed to standard output. *)
Record Process := {
  self : AuthorizationVerifier;
  requests_made : nat;
  stdout : list string
}.

(** A Python computation: it runs on a process state and either returns a
    value or raises; the state changes made before a raise persist. *)
Definition M (A : Type) : Type := Process -> Result A * Process.

Definition ret {A} (a : A) : M A := fun st => (Ok a, st).

Definition bind {A B} (m : M A) (k : A -> M B) : M B :=
  fun st =>
    match m st with
    | (Ok a, st') => k a st'
    | (Raise e, st') => (Raise e, st')
    end.

Declare Scope py_scope.
Delimit Scope py_scope with py.
Notation "x <- m ;; k" := (bind m (fun x => k))
  (at level 61, m at next level, right associativity) : py_scope.
Notation "m ;; k" := (bind m (fun _ => k))
  (at level 61, right associativity) : py_scope.
Local Open Scope py_scope.

(** [try: body  except Exception as e: handler e] *)
Definition try_except {A} (body : M A) (handler : PyExc -> M A) : M A :=
  fun st =>
    match body st with
    | (Ok a, st') => (Ok a, st')
    | (Raise e, st') => handler e st'
    end.

(** A pure operation of the runtime that may raise. *)
Definition lift {A} (r : Result A) : M A := fun st => (r, st).

Definition get_self : M AuthorizationVerifier := fun st => (Ok (self st), st).

(** [self.results.append(r)] *)
Definition results_append (r : TestResult) : M unit :=
  fun st =>
    (Ok tt,
     {| self := {| host := host (self st);
                   base_url := base_url (self st);
                   timeout := timeout (self st);
                   results := results (self st) ++ [r] |};
        requests_made := requests_made st;
        stdout := stdout st |}).

(** [print(line)] *)
Definition print (line : string) : M unit :=
  fun st =>
    (Ok tt,
     {| self := self st;
        requests_made := requests_made st;
        stdout := stdout st ++ [line] |}).

(** [for x in xs: body x] *)
Fixpoint for_each {A} (xs : list A) (body : A -> M unit) : M unit :=
  match xs with
  | [] => ret tt
  | x :: rest => body x ;; for_each rest body
  end.

(** [for x in xs: acc = body acc x], for a loop that updates a local. *)
Fixpoint for_fold {A B} (xs : list A) (acc : B) (body : B -> A -> M B) : M B :=
  match xs with
  | [] => ret acc
  | x :: rest => acc' <- body acc x ;; for_fold rest acc' body
  end.

Definition enumerate {A} (xs : list A) : list (nat * A) :=
  combine (seq 0 (length xs)) xs.

Definition range (n : nat) : list nat := seq 0 n.

(* ================================================================== *)
(** * class AuthorizationVerifier *)

Definition mk_result (n : string) (p : bool) (msg : string) (code : option Z)
  : TestResult :=
  {| name := n; passed := p; message := msg; response_code := code |}.

(** [AuthorizationVerifier.__init__] *)
Definition __init__ (host_ : string) (use_ssl : bool) (timeout_ : Q)
  : AuthorizationVerifier :=
  {| host := host_;
     base_url := (if use_ssl then "https" else "http") ++ "://" ++ host_;
     timeout := timeout_;
     results := [] |}.

Section Harness.
Context {text : PyText}.
Variable target : World.

(** [requests.post(url, json={"query": query}, timeout=timeout)]: the
    target decides; the call counts as issued whether it returns or
    raises. *)
Definition requests_post (url query : string) (timeout_ : Q) : M Response :=
  fun st =>
    (target (requests_made st)
            {| req_url := url; req_query := query; req_timeout := timeout_ |},
     {| self := self st;
        requests_made := S (requests_made st);
        stdout := stdout st |}).

(** The call every probe makes:
    [requests.post(f"{self.base_url}/graphql", json=query, timeout=self.timeout)] *)
Definition post_graphql (query : string) : M Response :=
  me <- get_self ;;
  requests_post (base_url me ++ "/graphql") query (timeout me).

(** [response.json()] *)
Definition response_json (response : Response) : M json :=
  lift (json_ response).

Definition _test_graphql_endpoint : M unit :=
  try_except
    (let query := "{ __schema { types { name } } }" in
     response <- post_graphql query ;;
     if status_code response =? 200 then
       results_append (mk_result
         "GraphQL Endpoint Available"
         true
         "GraphQL endpoint is responding"
         (Some (status_code response)))
     else
       results_append (mk_result
         "GraphQL Endpoint Available"
         false
         ("GraphQL endpoint returned status " ++ str_of_Z (status_code response))
         (Some (status_code response))))
    (fun e =>
       results_append (mk_result
         "GraphQL Endpoint Available"
         false
         ("Failed to connect to GraphQL endpoint: " ++ exc_text e)
         None)).

Definition _test_health_endpoint : M unit :=
  try_except
    (let query := "{ health { status version } }" in
     response <- post_graphql query ;;
     if status_code response =? 200 then
       data <- response_json response ;;
       has_data <- lift (py_in "data" data) ;;
       has_health <-
         (if has_data : bool then
            inner <- lift (py_getitem data "data") ;;
            lift (py_in "health" inner)
          else ret false) ;;
       if has_health : bool then
         results_append (mk_result
           "Health Endpoint No Auth Required"
           true
           "Health endpoint accessible without authentication"
           (Some (status_code response)))
       else
         results_append (mk_result
           "Health Endpoint No Auth Required"
           false
           "Health endpoint returned unexpected format"
           (Some (status_code response)))
     else
       results_append (mk_result
         "Health Endpoint No Auth Required"
         false
         ("Health endpoint returned status " ++ str_of_Z (status_code response))
         (Some (status_code response))))
    (fun e =>
       results_append (mk_result
         "Health Endpoint No Auth Required"
         false
         ("Health endpoint test failed: " ++ exc_text e)
         None)).

Definition protected_queries : list string :=
  [ "{ notes(first: 5) { edges { node { id title } } } }";
    "{ note(id: " ++ dq ++ "notes:test" ++ dq ++ ") { id title } }" ].

(** ['auth' in str(error).lower() or 'permission' in str(error).lower()] *)
Definition mentions_auth (error : json) : bool :=
  contains "auth" (str_lower (py_str error))
  || contains "permission" (str_lower (py_str error)).

(** The body of the loop of [_test_unauthenticated_requests]. *)
Definition unauthenticated_request (i : nat) (query : string) : M unit :=
  try_except
    (response <- post_graphql query ;;
     if status_code response =? 200 then
       data <- response_json response ;;
       has_errors <- lift (py_in "errors" data) ;;
       if has_errors : bool then
         errors <- lift (py_getitem data "errors") ;;
         each <- lift (py_iter errors) ;;
         let auth_error := existsb mentions_auth each in
         if auth_error then
           results_append (mk_result
             ("Protected Query " ++ str_of_nat (i + 1) ++ " Requires Auth")
             true
             "Protected query correctly rejected without auth"
             (Some (status_code response)))
         else
           results_append (mk_result
             ("Protected Query " ++ str_of_nat (i + 1) ++ " Requires Auth")
             false
             "Protected query should require authentication"
             (Some (status_code response)))
       else
         results_append (mk_result
           ("Protected Query " ++ str_of_nat (i + 1) ++ " Requires Auth")
           false
           "Protected query returned success without auth - security issue!"
           (Some (status_code response)))
     else
       results_append (mk_result
         ("Protected Query " ++ str_of_nat (i + 1) ++ " Requires Auth")
         false
         ("Unexpected status code: " ++ str_of_Z (status_code response))
         (Some (status_code response))))
    (fun e =>
       results_append (mk_result
         ("Protected Query " ++ str_of_nat (i + 1) ++ " Requires Auth")
         false
         ("Test failed: " ++ exc_text e)
         None)).

Definition _test_unauthenticated_requests : M unit :=
  for_each (enumerate protected_queries)
           (fun '(i, query) => unauthenticated_request i query).

Definition _test_demo_mode : M unit :=
  try_except
    (let query := "{ health { status } }" in
     response <- post_graphql query ;;
     if status_code response =? 200 then
       results_append (mk_result
         "Demo Mode Detection"
         true
         "Demo mode test completed (check server logs for warnings)"
         (Some (status_code response)))
     else
       results_append (mk_result
         "Demo Mode Detection"
         false
         ("Could not test demo mode: status " ++ str_of_Z (status_code response))
         (Some (status_code response))))
    (fun e =>
       results_append (mk_result
         "Demo Mode Detection"
         false
         ("Demo mode test failed: " ++ exc_text e)
         None)).

Definition bypass_attempts : list string :=
  [ "{ note(id: " ++ dq ++ "'; DROP TABLE notes; --" ++ dq ++ ") { id } }";
    "{ note(id: " ++ dq ++ "notes:test" ++ dq
      ++ ") { id ... on __Schema { types { name } } } }";
    "{ " ++ repeat_str "notes(first: 1000) { edges { node { " 10 ++ "id"
         ++ repeat_str " } } }" 10 ++ " }" ].

(** The body of the loop of [_test_authorization_bypass_attempts]. *)
Definition bypass_attempt (i : nat) (query : string) : M unit :=
  try_except
    (response <- post_graphql query ;;
     if status_code response =? 200 then
       data <- response_json response ;;
       has_errors <- lift (py_in "errors" data) ;;
       if has_errors : bool then
         results_append (mk_result
           ("Bypass Attempt " ++ str_of_nat (i + 1) ++ " Blocked")
           true
           "Potential bypass attempt properly rejected"
           (Some (status_code response)))
       else
         results_append (mk_result
           ("Bypass Attempt " ++ str_of_nat (i + 1) ++ " Blocked")
           false
           "Potential bypass attempt was not rejected - investigate!"
           (Some (status_code response)))
     else
       results_append (mk_result
         ("Bypass Attempt " ++ str_of_nat (i + 1) ++ " Blocked")
         true
         ("Bypass attempt rejected with status " ++ str_of_Z (status_code response))
         (Some (status_code response))))
    (fun e =>
       results_append (mk_result
         ("Bypass Attempt " ++ str_of_nat (i + 1) ++ " Blocked")
         true
         ("Bypass attempt caused error (likely blocked): " ++ exc_text e)
         None)).

Definition _test_authorization_bypass_attempts : M unit :=
  for_each (enumerate bypass_attempts)
           (fun '(i, query) => bypass_attempt i query).

Definition _test_rate_limiting : M unit :=
  try_except
    (let query := "{ health { status } }" in
     responses <-
       for_fold (range 10) ([] : list Z)
         (fun responses _ =>
            response <- post_graphql query ;;
            ret (responses ++ [status_code response])%list) ;;
     let rate_limited := existsb (fun status => status =? 429) responses in
     if rate_limited then
       results_append (mk_result
         "Rate Limiting Active"
         true
         "Rate limiting is active (some requests returned 429)"
         None)
     else
       results_append (mk_result
         "Rate Limiting Active"
         true
         "Rate limiting test completed (no 429s - may not be configured)"
         None))
    (fun e =>
       results_append (mk_result
         "Rate Limiting Active"
         false
         ("Rate limiting test failed: " ++ exc_text e)
         None)).

(** [" [{code}]" if code else ""]: [None] and [0] are falsy. *)
Definition code_suffix (code : option Z) : string :=
  match code with
  | Some c => if c =? 0 then "" else " [" ++ str_of_Z c ++ "]"
  | None => ""
  end.

Definition _print_results : M unit :=
  print (nl ++ "📋 Test Results:") ;;
  print (repeat_str "-" 60) ;;
  me <- get_self ;;
  for_each (results me)
    (fun result =>
       let status := if passed result then "✅" else "❌" in
       let code := code_suffix (response_code result) in
       print (status ++ " " ++ name result ++ code) ;;
       print ("   " ++ message result) ;;
       print "").

(** [sum(1 for r in self.results if r.passed)] *)
Definition count_passed (rs : list TestResult) : nat :=
  length (filter passed rs).

Definition run_all_tests : M bool :=
  me <- get_self ;;
  print ("🔍 Verifying authorization system at " ++ base_url me) ;;
  print (repeat_str "=" 60) ;;
  _test_graphql_endpoint ;;
  _test_health_endpoint ;;
  _test_unauthenticated_requests ;;
  _test_demo_mode ;;
  _test_authorization_bypass_attempts ;;
  _test_rate_limiting ;;
  _print_results ;;
  me <- get_self ;;
  let passed_tests := count_passed (results me) in
  let total_tests := length (results me) in
  print (nl ++ "📊 Results: " ++ str_of_nat passed_tests ++ "/"
            ++ str_of_nat total_tests ++ " tests passed") ;;
  if (passed_tests =? total_tests)%nat then
    print "✅ All authorization tests PASSED" ;;
    ret true
  else
    print "❌ Some authorization tests FAILED" ;;
    ret false.

(** ** main *)

(** The namespace [parser.parse_args()] returns. *)
Record Args := {
  args_host : string;
  args_ssl : bool;
  args_timeout : Q
}.

Definition default_args : Args :=
  {| args_host := "localhost:8080"; args_ssl := false; args_timeout := 10 # 1 |}.

(** The process as [main] starts the run: a fresh verifier, no request
    issued, nothing printed. *)
Definition start (args : Args) : Process :=
  {| self := __init__ (args_host args) (args_ssl args) (args_timeout args);
     requests_made := 0;
     stdout := [] |}.

(** [main] after argument parsing: the exit status of the process and its
    final state.  [sys.exit(0 if success else 1)]; an exception that
    reached the top level would end the process with status 1. *)
Definition main (args : Args) : Z * Process :=
  match run_all_tests (start args) with
  | (Ok success, st) => (if success then 0 else 1, st)
  | (Raise _, st) => (1, st)
  end.

End Harness.

(* ================================================================== *)
(** * The verdict of each probe, as a function of its request's outcome *)

(** Each probe issues its request, classifies the outcome and appends one
    verdict.  The functions below give that verdict directly from the
    outcome; the lemmas [*_runs] further down show that the methods of
    [AuthorizationVerifier] compute exactly these. *)

Definition and_then {A B} (r : Result A) (k : A -> Result B) : Result B :=
  match r with
  | Ok a => k a
  | Raise e => Raise e
  end.

Definition availability_query : string := "{ __schema { types { name } } }".
Definition health_query : string := "{ health { status version } }".
Definition demo_query : string := "{ health { status } }".

(** The request a probe sends for a query document. *)
Definition graphql_request (me : AuthorizationVerifier) (query : string) : Request :=
  {| req_url := base_url me ++ "/graphql";
     req_query := query;
     req_timeout := timeout me |}.

(** The state once the verdicts [vs] have been appended, [issued] more
    requests have been made, and the output has become [out]. *)
Definition after (st : Process) (vs : list TestResult) (issued : nat)
                 (out : list string) : Process :=
  {| self := {| host := host (self st);
                base_url := base_url (self st);
                timeout := timeout (self st);
                results := results (self st) ++ vs |};
     requests_made := issued + requests_made st;
     stdout := out |}.

(** The state after printing: only the output has changed. *)
Definition printed (st : Process) (out : list string) : Process :=
  {| self := self st; requests_made := requests_made st; stdout := out |}.

(** [m] does nothing but print. *)
Definition only_prints (m : M unit) : Prop :=
  forall st, exists out, m st = (Ok tt, printed st out).

(** [m], run from [st], returns [a] after appending the verdicts [vs] and
    issuing [k] requests; what it prints is left open. *)
Definition performs {A} (m : M A) (st : Process) (a : A)
                    (vs : list TestResult) (k : nat) : Prop :=
  exists out, m st = (Ok a, after st vs k out).

(** The state after a probe: one more verdict, nothing printed. *)
Definition record_verdict (v : TestResult) (issued : nat) (st : Process) : Process :=
  after st [v] issued (stdout st).

Section Classifier.
Context {text : PyText}.

Definition endpoint_verdict (outcome : Result Response) : TestResult :=
  match outcome with
  | Ok response =>
      if status_code response =? 200 then
        mk_result "GraphQL Endpoint Available" true
                  "GraphQL endpoint is responding" (Some (status_code response))
      else
        mk_result "GraphQL Endpoint Available" false
                  ("GraphQL endpoint returned status " ++ str_of_Z (status_code response))
                  (Some (status_code response))
  | Raise e =>
      mk_result "GraphQL Endpoint Available" false
                ("Failed to connect to GraphQL endpoint: " ++ exc_text e) None
  end.

(** ['data' in data and 'health' in data['data']] *)
Definition health_shape (data : json) : Result bool :=
  and_then (py_in "data" data) (fun has_data =>
  if has_data : bool then
    and_then (py_getitem data "data") (fun inner => py_in "health" inner)
  else Ok false).

Definition health_verdict (outcome : Result Response) : TestResult :=
  match outcome with
  | Ok response =>
      if status_code response =? 200 then
        match and_then (json_ response) health_shape with
        | Ok true =>
            mk_result "Health Endpoint No Auth Required" true
                      "Health endpoint accessible without authentication"
                      (Some (status_code response))
        | Ok false =>
            mk_result "Health Endpoint No Auth Required" false
                      "Health endpoint returned unexpected format"
                      (Some (status_code response))
        | Raise e =>
            mk_result "Health Endpoint No Auth Required" false
                      ("Health endpoint test failed: " ++ exc_text e) None
        end
      else
        mk_result "Health Endpoint No Auth Required" false
                  ("Health endpoint returned status " ++ str_of_Z (status_code response))
                  (Some (status_code response))
  | Raise e =>
      mk_result "Health Endpoint No Auth Required" false
                ("Health endpoint test failed: " ++ exc_text e) None
  end.

(** The scan of a protected query's body: [None] when ['errors' in data] is
    false, otherwise whether some error mentions authorization. *)
Definition errors_scan (data : json) : Result (option bool) :=
  and_then (py_in "errors" data) (fun has_errors =>
  if has_errors : bool then
    and_then (py_getitem data "errors") (fun errors =>
    and_then (py_iter errors) (fun each =>
    Ok (Some (existsb mentions_auth each))))
  else Ok None).

Definition protected_name (i : nat) : string :=
  "Protected Query " ++ str_of_nat (i + 1) ++ " Requires Auth".

Definition protected_verdict (i : nat) (outcome : Result Response) : TestResult :=
  match outcome with
  | Ok response =>
      if status_code response =? 200 then
        match and_then (json_ response) errors_scan with
        | Ok (Some true) =>
            mk_result (protected_name i) true
                      "Protected query correctly rejected without auth"
                      (Some (status_code response))
        | Ok (Some false) =>
            mk_result (protected_name i) false
                      "Protected query should require authentication"
                      (Some (status_code response))
        | Ok None =>
            mk_result (protected_name i) false
                      "Protected query returned success without auth - security issue!"
                      (Some (status_code response))
        | Raise e =>
            mk_result (protected_name i) false ("Test failed: " ++ exc_text e) None
        end
      else
        mk_result (protected_name i) false
                  ("Unexpected status code: " ++ str_of_Z (status_code response))
                  (Some (status_code response))
  | Raise e =>
      mk_result (protected_name i) false ("Test failed: " ++ exc_text e) None
  end.

Definition demo_verdict (outcome : Result Response) : TestResult :=
  match outcome with
  | Ok response =>
      if status_code response =? 200 then
        mk_result "Demo Mode Detection" true
                  "Demo mode test completed (check server logs for warnings)"
                  (Some (status_code response))
      else
        mk_result "Demo Mode Detection" false
                  ("Could not test demo mode: status " ++ str_of_Z (status_code response))
                  (Some (status_code response))
  | Raise e =>
      mk_result "Demo Mode Detection" false
                ("Demo mode test failed: " ++ exc_text e) None
  end.

Definition bypass_name (i : nat) : string :=
  "Bypass Attempt " ++ str_of_nat (i + 1) ++ " Blocked".

Definition bypass_verdict (i : nat) (outcome : Result Response) : TestResult :=
  match outcome with
  | Ok response =>
      if status_code response =? 200 then
        match and_then (json_ response) (py_in "errors") with
        | Ok true =>
            mk_result (bypass_name i) true
                      "Potential bypass attempt properly rejected"
                      (Some (status_code response))
        | Ok false =>
            mk_result (bypass_name i) false
                      "Potential bypass attempt was not rejected - investigate!"
                      (Some (status_code response))
        | Raise e =>
            mk_result (bypass_name i) true
                      ("Bypass attempt caused error (likely blocked): " ++ exc_text e)
                      None
        end
      else
        mk_result (bypass_name i) true
                  ("Bypass attempt rejected with status " ++ str_of_Z (status_code response))
                  (Some (status_code response))
  | Raise e =>
      mk_result (bypass_name i) true
                ("Bypass attempt caused error (likely blocked): " ++ exc_text e) None
  end.

(** The status codes the burst collects, or the first error raised. *)
Fixpoint rapid_statuses (outcomes : list (Result Response)) : Result (list Z) :=
  match outcomes with
  | [] => Ok []
  | Ok response :: rest =>
      and_then (rapid_statuses rest) (fun codes => Ok (status_code response :: codes))
  | Raise e :: _ => Raise e
  end.

(** The requests the burst issues: it stops after the first that raises. *)
Fixpoint rapid_issued (outcomes : list (Result Response)) : nat :=
  match outcomes with
  | [] => 0
  | Ok _ :: rest => S (rapid_issued rest)
  | Raise _ :: _ => 1
  end.

Definition rate_verdict (outcomes : list (Result Response)) : TestResult :=
  match rapid_statuses outcomes with
  | Ok responses =>
      if existsb (fun status => status =? 429) responses then
        mk_result "Rate Limiting Active" true
                  "Rate limiting is active (some requests returned 429)" None
      else
        mk_result "Rate Limiting Active" true
                  "Rate limiting test completed (no 429s - may not be configured)" None
  | Raise e =>
      mk_result "Rate Limiting Active" false
                ("Rate limiting test failed: " ++ exc_text e) None
  end.

Variable target : World.

(** The outcome of the request a probe sends from state [st]. *)
Definition outcome_of (st : Process) (query : string) : Result Response :=
  target (requests_made st) (graphql_request (self st) query).

(** The outcomes of the [count] requests issued from request number
    [first] on, all for the same request. *)
Definition burst (request : Request) (first count : nat) : list (Result Response) :=
  map (fun k => target k request) (seq first count).

(** The nine verdicts of a run whose first request has number [n]. *)
Definition run_verdicts (me : AuthorizationVerifier) (n : nat) : list TestResult :=
  let ask (k : nat) (query : string) :=
    target (k + n)%nat (graphql_request me query) in
  ([ endpoint_verdict (ask 0%nat availability_query);
     health_verdict (ask 1%nat health_query) ]
   ++ map (fun '(i, query) => protected_verdict i (ask (2 + i)%nat query))
          (enumerate protected_queries)
   ++ [ demo_verdict (ask 4%nat demo_query) ]
   ++ map (fun '(i, query) => bypass_verdict i (ask (5 + i)%nat query))
          (enumerate bypass_attempts)
   ++ [ rate_verdict (burst (graphql_request me demo_query) (8 + n)%nat 10) ])%list.

End Classifier.

(* ================================================================== *)
(** * Vocabulary of the statements *)

(** [needle] occurs in [hay]. *)
Definition is_substring (needle hay : string) : Prop :=
  exists before after, hay = before ++ needle ++ after.

(** The target cannot be reached: every request raises. *)
Definition unreachable (target : World) : Prop :=
  forall n request, exists e, target n request = Raise e.

(** The target answers a query with a given status, whenever it is asked. *)
Definition answers_with (target : World) (code : Z) (query : string) : Prop :=
  forall n request,
    req_query request = query ->
    exists response, target n request = Ok response /\ status_code response = code.

(** A collection without elements, as an ['errors'] member. *)
Definition empty_collection (value : json) : Prop :=
  value = JList [] \/ value = JDict [].

(** The text of the error an outcome raised. *)
Definition raised (outcome : Result Response) : string :=
  match outcome with
  | Raise e => exc_text e
  | Ok _ => ""
  end.

(** The verdict a probe has just appended. *)
Definition last_verdict (st : Process) : option TestResult :=
  last (map Some (results (self st))) None.

(* ================================================================== *)
(** * Sample targets *)

Definition refused : PyExc :=
  {| exc_class := "ConnectionError"; exc_text := "Connection refused" |}.

Definition timed_out : PyExc :=
  {| exc_class := "ReadTimeout"; exc_text := "Read timed out. (read timeout=10.0)" |}.

(** Nothing listens at the address. *)
Definition down : World := fun _ _ => Raise refused.

(** Every request gets the same answer. *)
Definition always (code : Z) (body : Result json) : World :=
  fun _ _ => Ok {| status_code := code; json_ := body |}.

Definition unauthorized_body : json :=
  JDict [("error", JStr "Unauthorized")].

(** A 200 answer whose ['errors'] member is an empty list. *)
Definition empty_errors_body : json :=
  JDict [("data", JNull); ("errors", JList [])].

(** A 200 answer that leaks the notes. *)
Definition leak_body : json :=
  JDict [("data", JDict [("notes", JDict [("edges", JList [])])])].

(** A 200 answer that rejects the query for want of authentication. *)
Definition rejected_body : json :=
  JDict [("data", JNull);
         ("errors", JList [JDict [("message", JStr "Authentication required")]])].

(** A target that answers until request number [k], which times out. *)
Definition fails_at (k : nat) : World :=
  fun n _ =>
    if (n =? k)%nat then Raise timed_out
    else Ok {| status_code := 200; json_ := Ok leak_body |}.

(** A target that throttles from request number [k] on. *)
Definition throttles_from (k : nat) : World :=
  fun n _ =>
    Ok {| status_code := if (k <=? n)%nat then 429 else 200;
          json_ := Ok rejected_body |}.

(** A healthy ['data'] payload. *)
Definition health_body : json :=
  JDict [("data", JDict [("health", JDict [("status", JStr "ok");
                                            ("version", JStr "1.0.0")])])].

Definition is_health_query (request : Request) : bool :=
  contains "health" (req_query request).

(** A service that does what the harness hopes for: health is open, and
    everything else is rejected in the GraphQL response. *)
Definition well_behaved : World :=
  fun _ request =>
    Ok {| status_code := 200;
          json_ := Ok (if is_health_query request || contains "__schema" (req_query request)
                       then health_body else rejected_body) |}.

Definition is_guarded (request : Request) : bool :=
  existsb (String.eqb (req_query request)) (protected_queries ++ bypass_attempts).

(** A service behind a gateway that answers 401 to every protected query
    and every bypass payload, and serves the rest. *)
Definition guarded_401 : World :=
  fun _ request =>
    if is_guarded request
    then Ok {| status_code := 401; json_ := Ok unauthorized_body |}
    else Ok {| status_code := 200; json_ := Ok health_body |}.

Definition fresh : Process := start default_args.

(** The verdicts of a whole run of [main] against a target, as
    name and outcome. *)
Definition report `{PyText} (target : World) : list (string * bool) :=
  map (fun v => (name v, passed v)) (results (self (snd (main target default_args)))).

(* ================================================================== *)
(** * What the run prints *)

(** The three lines [_print_results] prints for one verdict. *)
Definition render_result (result : TestResult) : list string :=
  [ (if passed result then "✅" else "❌") ++ " " ++ name result
      ++ code_suffix (response_code result);
    "   " ++ message result;
    "" ].

(** The lines [_print_results] prints for a list of verdicts. *)
Definition report_lines (rs : list TestResult) : list string :=
  [ nl ++ "📋 Test Results:"; repeat_str "-" 60 ] ++ flat_map render_result rs.

(** The two lines that close a run. *)
Definition closing_lines (rs : list TestResult) : list string :=
  [ nl ++ "📊 Results: " ++ str_of_nat (count_passed rs) ++ "/"
       ++ str_of_nat (length rs) ++ " tests passed";
    if (count_passed rs =? length rs)%nat
    then "✅ All authorization tests PASSED"
    else "❌ Some authorization tests FAILED" ].

(** Everything a run prints, for a verifier at [base] that ends up holding
    the verdicts [rs]. *)
Definition transcript (base : string) (rs : list TestResult) : list string :=
  [ "🔍 Verifying authorization system at " ++ base; repeat_str "=" 60 ]
  ++ report_lines rs ++ closing_lines rs.

(** Two targets that answer alike whenever they are asked at [url] with
    the timeout [wait]. *)
Definition agree_at (url : string) (wait : Q) (target target' : World) : Prop :=
  forall n query,
    target n {| req_url := url; req_query := query; req_timeout := wait |}
    = target' n {| req_url := url; req_query := query; req_timeout := wait |}.

(** A body went through the authorization scan of a protected query and
    some error mentioned authorization. *)
Definition rejected_for_auth `{PyText} (outcome : Result Response) : Prop :=
  exists response members errors each,
    outcome = Ok response
    /\ status_code response = 200
    /\ json_ response = Ok (JDict members)
    /\ dict_get "errors" members = Some errors
    /\ py_iter errors = Ok each
    /\ exists error, In error each
       /\ (is_substring "auth" (str_lower (py_str error))
           \/ is_substring "permission" (str_lower (py_str error))).

(** A bypass payload got through: status 200 and a body in which
    ['errors' in data] is false. *)
Definition got_through (outcome : Result Response) : Prop :=
  exists response data,
    outcome = Ok response
    /\ status_code response = 200
    /\ json_ response = Ok data
    /\ py_in "errors" data = Ok false.

(** A value that [for ... in] cannot iterate. *)
Definition not_iterable (value : json) : Prop :=
  match value with
  | JNull | JBool _ | JInt _ | JFloat _ => True
  | _ => False
  end.

(** A target whose protected data leaks with ['errors': null]. *)
Definition null_errors_body : json :=
  JDict [("data", JDict [("notes", JList [])]); ("errors", JNull)].

(** A proxy that serves a web page for everything. *)
Definition html_page : World :=
  always 200 (Raise {| exc_class := "JSONDecodeError";
                       exc_text := "Expecting value: line 1 column 1 (char 0)" |}).

(** A target that refuses connections at the address [main] dials by
    default, and answers anywhere else. *)
Definition refuses_here : World :=
  fun _ request =>
    if String.eqb (req_url request) "http://localhost:8080/graphql"
    then Raise refused
    else Ok {| status_code := 200; json_ := Ok health_body |}.

(** A 200 answer to the health query whose ['data'] is [null]. *)
Definition null_data_body : json :=
  JDict [("data", JNull); ("errors", JList [JDict [("message", JStr "boom")]])].

(* ================================================================== *)
(** * Substring search *)

Lemma prefix_iff (p s : string) :
  String.prefix p s = true <-> exists rest, s = p ++ rest.
Proof.
  revert s; induction p as [|c p IH]; intros s.
  - split; [intros _; exists s; reflexivity | intros _; destruct s; reflexivity].
  - destruct s as [|d s]; simpl.
    + split; [discriminate | intros [rest H]; discriminate].
    + destruct (ascii_dec c d) as [->|Hne].
      * rewrite IH. split; intros [rest H]; exists rest.
        -- now rewrite H.
        -- now inversion H.
      * split; [discriminate | intros [rest H]; inversion H; congruence].
Qed.

Lemma contains_iff (needle hay : string) :
  contains needle hay = true <-> is_substring needle hay.
Proof.
  unfold is_substring.
  induction hay as [|c hay IH].
  - change (contains needle "") with (String.prefix needle "" || false).
    rewrite orb_false_r, prefix_iff. split.
    + intros [rest H]. exists "", rest. exact H.
    + intros [before [after H]].
      destruct before; [exists after; exact H | discriminate].
  - change (contains needle (String c hay))
      with (String.prefix needle (String c hay) || contains needle hay).
    rewrite orb_true_iff, prefix_iff, IH. split.
    + intros [[rest H]|[before [after H]]].
      * exists "", rest. exact H.
      * exists (String c before), after. simpl. now rewrite H.
    + intros [before [after H]].
      destruct before as [|d before]; simpl in H.
      * left. exists after. exact H.
      * right. exists before, after. now inversion H.
Qed.

(* ================================================================== *)
(** * The methods compute the verdict functions *)

Ltac tidy :=
  unfold outcome_of, graphql_request, record_verdict, after, printed;
  cbn [self requests_made stdout results host base_url timeout
       req_url req_query req_timeout Nat.add].

Section Runs.
Context {text : PyText}.
Variable target : World.

Lemma _test_graphql_endpoint_runs (st : Process) :
  _test_graphql_endpoint target st =
  (Ok tt, record_verdict (endpoint_verdict (outcome_of target st availability_query)) 1 st).
Proof.
  destruct st as [me n out].
  unfold _test_graphql_endpoint, try_except, post_graphql, bind, get_self,
    requests_post, record_verdict, after, outcome_of, endpoint_verdict, graphql_request,
    availability_query; simpl.
  destruct (target n _) as [response|e]; simpl; [|reflexivity].
  destruct (status_code response =? 200); reflexivity.
Qed.

Lemma _test_health_endpoint_runs (st : Process) :
  _test_health_endpoint target st =
  (Ok tt, record_verdict (health_verdict (outcome_of target st health_query)) 1 st).
Proof.
  destruct st as [me n out].
  unfold _test_health_endpoint, try_except, post_graphql, bind, get_self,
    requests_post, record_verdict, after, outcome_of, health_verdict, graphql_request,
    health_query, response_json, lift, health_shape, and_then; simpl.
  destruct (target n _) as [response|e]; simpl; [|reflexivity].
  destruct (status_code response =? 200); [|reflexivity].
  destruct (json_ response) as [data|e]; [|reflexivity].
  destruct (py_in "data" data) as [[|]|e]; simpl; try reflexivity.
  destruct (py_getitem data "data") as [inner|e]; simpl; [|reflexivity].
  destruct (py_in "health" inner) as [[|]|e]; reflexivity.
Qed.

Lemma unauthenticated_request_runs (i : nat) (query : string) (st : Process) :
  unauthenticated_request target i query st =
  (Ok tt, record_verdict (protected_verdict i (outcome_of target st query)) 1 st).
Proof.
  destruct st as [me n out].
  unfold unauthenticated_request, try_except, post_graphql, bind, get_self,
    requests_post, record_verdict, after, outcome_of, protected_verdict, graphql_request,
    response_json, lift, errors_scan, and_then, protected_name; simpl.
  destruct (target n _) as [response|e]; simpl; [|reflexivity].
  destruct (status_code response =? 200); [|reflexivity].
  destruct (json_ response) as [data|e]; [|reflexivity].
  destruct (py_in "errors" data) as [[|]|e]; simpl; try reflexivity.
  destruct (py_getitem data "errors") as [errors|e]; simpl; [|reflexivity].
  destruct (py_iter errors) as [each|e]; simpl; [|reflexivity].
  destruct (existsb mentions_auth each); reflexivity.
Qed.

Lemma _test_demo_mode_runs (st : Process) :
  _test_demo_mode target st =
  (Ok tt, record_verdict (demo_verdict (outcome_of target st demo_query)) 1 st).
Proof.
  destruct st as [me n out].
  unfold _test_demo_mode, try_except, post_graphql, bind, get_self,
    requests_post, record_verdict, after, outcome_of, demo_verdict, graphql_request,
    demo_query; simpl.
  destruct (target n _) as [response|e]; simpl; [|reflexivity].
  destruct (status_code response =? 200); reflexivity.
Qed.

Lemma bypass_attempt_runs (i : nat) (query : string) (st : Process) :
  bypass_attempt target i query st =
  (Ok tt, record_verdict (bypass_verdict i (outcome_of target st query)) 1 st).
Proof.
  destruct st as [me n out].
  unfold bypass_attempt, try_except, post_graphql, bind, get_self,
    requests_post, record_verdict, after, outcome_of, bypass_verdict, graphql_request,
    response_json, lift, and_then, bypass_name; simpl.
  destruct (target n _) as [response|e]; simpl; [|reflexivity].
  destruct (status_code response =? 200); [|reflexivity].
  destruct (json_ response) as [data|e]; [|reflexivity].
  destruct (py_in "errors" data) as [[|]|e]; reflexivity.
Qed.


(** ** The burst of the rate-limit probe *)

Lemma burst_step (request : Request) (n count : nat) :
  burst target request n (S count) =
  target n request :: burst target request (S n) count.
Proof. reflexivity. Qed.

Lemma burst_runs (xs : list nat) :
  forall (acc : list Z) (st : Process),
    for_fold xs acc
      (fun responses _ =>
         response <- post_graphql target demo_query ;;
         ret (responses ++ [status_code response])%list) st =
    (and_then
       (rapid_statuses
          (burst target (graphql_request (self st) demo_query)
                 (requests_made st) (length xs)))
       (fun codes => Ok (acc ++ codes)%list),
     {| self := self st;
        requests_made :=
          rapid_issued
            (burst target (graphql_request (self st) demo_query)
                   (requests_made st) (length xs))
          + requests_made st;
        stdout := stdout st |}).
Proof.
  induction xs as [|x xs IH]; intros acc [me n out].
  - simpl. unfold ret. now rewrite app_nil_r.
  - cbn [for_fold length]. rewrite burst_step.
    unfold bind at 1. unfold post_graphql, bind, get_self, requests_post, ret.
    cbn [self requests_made stdout base_url timeout].
    change {| req_url := base_url me ++ "/graphql";
              req_query := demo_query; req_timeout := timeout me |}
      with (graphql_request me demo_query).
    destruct (target n (graphql_request me demo_query)) as [response|e].
    + rewrite IH. cbn [self requests_made stdout rapid_statuses rapid_issued].
      rewrite Nat.add_succ_r.
      destruct (rapid_statuses
                  (burst target (graphql_request me demo_query) (S n) (length xs)))
        as [codes|e]; simpl; [|reflexivity].
      now rewrite <- app_assoc.
    + reflexivity.
Qed.

Lemma _test_rate_limiting_runs (st : Process) :
  _test_rate_limiting target st =
  (Ok tt,
   record_verdict
     (rate_verdict
        (burst target (graphql_request (self st) demo_query) (requests_made st) 10))
     (rapid_issued
        (burst target (graphql_request (self st) demo_query) (requests_made st) 10))
     st).
Proof.
  unfold _test_rate_limiting, try_except.
  unfold bind at 1. rewrite burst_runs.
  change (length (range 10)) with 10%nat.
  unfold rate_verdict, record_verdict, after.
  destruct st as [me n out]. cbn [self requests_made stdout].
  destruct (rapid_statuses (burst target (graphql_request me demo_query) n 10))
    as [codes|e]; simpl.
  - destruct (existsb (fun status => status =? 429) codes); reflexivity.
  - reflexivity.
Qed.

(** ** Sequencing *)

Lemma bind_ok {A B} (m : M A) (f : A -> M B) (st st' : Process) (a : A) :
  m st = (Ok a, st') -> bind m f st = f a st'.
Proof. intros H. unfold bind. now rewrite H. Qed.

Lemma only_prints_print (line : string) : only_prints (print line).
Proof. intros st. exists (stdout st ++ [line])%list. reflexivity. Qed.

Lemma only_prints_seq (m k : M unit) :
  only_prints m -> only_prints k -> only_prints (m ;; k).
Proof.
  intros Hm Hk st. destruct (Hm st) as [out1 H1].
  destruct (Hk (printed st out1)) as [out2 H2].
  exists out2. rewrite (bind_ok _ _ _ _ _ H1). exact H2.
Qed.

Lemma only_prints_for_each {A} (xs : list A) (body : A -> M unit) :
  (forall x, only_prints (body x)) -> only_prints (for_each xs body).
Proof.
  intros Hbody. induction xs as [|x xs IH]; cbn [for_each].
  - intros st. exists (stdout st). now destruct st.
  - apply only_prints_seq; [apply Hbody | exact IH].
Qed.

Lemma _print_results_runs : only_prints _print_results.
Proof.
  unfold _print_results.
  apply only_prints_seq; [apply only_prints_print|].
  apply only_prints_seq; [apply only_prints_print|].
  intros st. unfold bind at 1, get_self.
  apply only_prints_for_each. intros result.
  repeat (apply only_prints_seq; [apply only_prints_print|]).
  apply only_prints_print.
Qed.

(** ** The two loops *)

Lemma _test_unauthenticated_requests_runs (st : Process) :
  _test_unauthenticated_requests target st =
  (Ok tt,
   after st
     [ protected_verdict 0
         (target (requests_made st)
                 (graphql_request (self st) (nth 0 protected_queries "")));
       protected_verdict 1
         (target (S (requests_made st))
                 (graphql_request (self st) (nth 1 protected_queries ""))) ]
     2 (stdout st)).
Proof.
  unfold _test_unauthenticated_requests.
  change (enumerate protected_queries)
    with [(0%nat, nth 0 protected_queries ""); (1%nat, nth 1 protected_queries "")].
  cbn [for_each].
  rewrite (bind_ok _ _ _ _ _ (unauthenticated_request_runs _ _ _)).
  rewrite (bind_ok _ _ _ _ _ (unauthenticated_request_runs _ _ _)).
  destruct st as [[h b t rs] n out].
  unfold ret, record_verdict, after, outcome_of, graphql_request; simpl.
  now rewrite <- app_assoc.
Qed.

Lemma _test_authorization_bypass_attempts_runs (st : Process) :
  _test_authorization_bypass_attempts target st =
  (Ok tt,
   after st
     [ bypass_verdict 0
         (target (requests_made st)
                 (graphql_request (self st) (nth 0 bypass_attempts "")));
       bypass_verdict 1
         (target (S (requests_made st))
                 (graphql_request (self st) (nth 1 bypass_attempts "")));
       bypass_verdict 2
         (target (S (S (requests_made st)))
                 (graphql_request (self st) (nth 2 bypass_attempts ""))) ]
     3 (stdout st)).
Proof.
  unfold _test_authorization_bypass_attempts.
  change (enumerate bypass_attempts)
    with [(0%nat, nth 0 bypass_attempts ""); (1%nat, nth 1 bypass_attempts "");
          (2%nat, nth 2 bypass_attempts "")].
  cbn [for_each].
  rewrite (bind_ok _ _ _ _ _ (bypass_attempt_runs _ _ _)).
  rewrite (bind_ok _ _ _ _ _ (bypass_attempt_runs _ _ _)).
  rewrite (bind_ok _ _ _ _ _ (bypass_attempt_runs _ _ _)).
  destruct st as [[h b t rs] n out].
  unfold ret, record_verdict, after, outcome_of, graphql_request; simpl.
  now rewrite <- !app_assoc.
Qed.

(** ** The whole run *)

Lemma run_all_tests_runs (st : Process) :
  performs (run_all_tests target) st
    (count_passed (results (self st)
                   ++ run_verdicts target (self st) (requests_made st))
     =? length (results (self st)
                ++ run_verdicts target (self st) (requests_made st)))%nat
    (run_verdicts target (self st) (requests_made st))
    (rapid_issued
       (burst target (graphql_request (self st) demo_query)
              (8 + requests_made st) 10) + 8).
Proof.
  destruct st as [[h b t rs] n out].
  unfold performs, run_all_tests.
  erewrite bind_ok by reflexivity. tidy.
  erewrite bind_ok by reflexivity. tidy.
  erewrite bind_ok by reflexivity. tidy.
  rewrite (bind_ok _ _ _ _ _ (_test_graphql_endpoint_runs _)). tidy.
  rewrite (bind_ok _ _ _ _ _ (_test_health_endpoint_runs _)). tidy.
  rewrite (bind_ok _ _ _ _ _ (_test_unauthenticated_requests_runs _)). tidy.
  rewrite (bind_ok _ _ _ _ _ (_test_demo_mode_runs _)). tidy.
  rewrite (bind_ok _ _ _ _ _ (_test_authorization_bypass_attempts_runs _)). tidy.
  rewrite (bind_ok _ _ _ _ _ (_test_rate_limiting_runs _)). tidy.
  match goal with
  | |- context [bind _print_results _ ?s] =>
      destruct (_print_results_runs s) as [out1 Hprint];
      rewrite (bind_ok _ _ _ _ _ Hprint); clear Hprint
  end. tidy.
  erewrite bind_ok by reflexivity. tidy.
  match goal with
  | |- context [count_passed ?l] =>
      assert (E : l = (rs ++ run_verdicts target
                          {| host := h; base_url := b; timeout := t; results := rs |}
                          n)%list)
        by (rewrite <- !app_assoc; reflexivity);
      rewrite !E; clear E
  end.
  erewrite bind_ok by reflexivity. tidy.
  replace (rapid_issued
             (burst target
                {| req_url := b ++ "/graphql"; req_query := demo_query;
                   req_timeout := t |} (S (S (S (S (S (S (S (S n)))))))) 10)
           + 8 + n)%nat
    with (rapid_issued
            (burst target
               {| req_url := b ++ "/graphql"; req_query := demo_query;
                  req_timeout := t |} (S (S (S (S (S (S (S (S n)))))))) 10)
          + S (S (S (S (S (S (S (S n))))))))%nat by lia.
  destruct (count_passed _ =? length _)%nat;
    erewrite bind_ok by reflexivity; eexists; reflexivity.
Qed.

(** The run in one line: it returns whether every verdict passed, and the
    verifier holds the old verdicts followed by the nine new ones. *)
Lemma run_all_tests_summary (st : Process) :
  exists st',
    run_all_tests target st =
      (Ok (count_passed (results (self st')) =? length (results (self st')))%nat, st')
    /\ results (self st') =
       (results (self st) ++ run_verdicts target (self st) (requests_made st))%list.
Proof.
  destruct (run_all_tests_runs st) as [out H].
  match type of H with _ = (_, ?s) => exists s end.
  split; [exact H | reflexivity].
Qed.

Lemma main_summary (args : Args) :
  exists st',
    main target args =
      (if (count_passed (results (self st')) =? length (results (self st')))%nat
       then 0 else 1, st')
    /\ run_all_tests target (start args) =
       (Ok (count_passed (results (self st')) =? length (results (self st')))%nat, st')
    /\ results (self st') = run_verdicts target (self (start args)) 0.
Proof.
  destruct (run_all_tests_summary (start args)) as [st' [Hrun Hres]].
  exists st'. unfold main. rewrite Hrun. auto.
Qed.

End Runs.

(* ================================================================== *)
(** * Counting verdicts *)

Lemma count_passed_le (rs : list TestResult) : (count_passed rs <= length rs)%nat.
Proof. unfold count_passed. apply filter_length_le. Qed.

Lemma count_passed_failed (rs : list TestResult) (v : TestResult) :
  In v rs -> passed v = false -> (count_passed rs < length rs)%nat.
Proof.
  unfold count_passed. induction rs as [|r rs IH]; intros Hin Hv; [contradiction|].
  simpl. destruct Hin as [->|Hin].
  - rewrite Hv. pose proof (filter_length_le passed rs). lia.
  - specialize (IH Hin Hv). destruct (passed r); simpl; lia.
Qed.

Lemma count_passed_all (rs : list TestResult) :
  count_passed rs = length rs <-> forall v, In v rs -> passed v = true.
Proof.
  split.
  - intros H v Hin. destruct (passed v) eqn:Hv; [reflexivity|].
    pose proof (count_passed_failed rs v Hin Hv). lia.
  - intros H. unfold count_passed. induction rs as [|r rs IH]; [reflexivity|].
    simpl. rewrite (H r (or_introl eq_refl)). simpl. f_equal.
    apply IH. intros v Hin. apply H. now right.
Qed.

Lemma run_verdicts_names `{PyText} (target : World) (me : AuthorizationVerifier) (n : nat) :
  map name (run_verdicts target me n) =
  [ "GraphQL Endpoint Available";
    "Health Endpoint No Auth Required";
    "Protected Query 1 Requires Auth";
    "Protected Query 2 Requires Auth";
    "Demo Mode Detection";
    "Bypass Attempt 1 Blocked";
    "Bypass Attempt 2 Blocked";
    "Bypass Attempt 3 Blocked";
    "Rate Limiting Active" ].
Proof.
  unfold run_verdicts. cbn [map app enumerate protected_queries bypass_attempts
                            length seq combine].
  repeat f_equal.
  all: unfold endpoint_verdict, health_verdict, protected_verdict, demo_verdict,
         bypass_verdict, rate_verdict.
  all: repeat match goal with
       | |- context [match ?x with _ => _ end] => destruct x
       end; reflexivity.
Qed.

(* ================================================================== *)
(** * Properties of the run *)

Section Run.
Context {text : PyText}.
Variable target : World.

(** C4.  Whatever the target answers, and whatever verdicts the verifier
    already holds: the number of passed verdicts never exceeds the number
    of verdicts; [run_all_tests] returns [True] exactly when the two are
    equal, that is when every verdict passed; and [main] exits with status
    0 exactly when [run_all_tests] returned [True], with status 1
    otherwise. *)
Theorem aggregate_and_exit_code :
  (forall st : Process,
     exists (success : bool) (st' : Process),
       run_all_tests target st = (Ok success, st')
       /\ (count_passed (results (self st')) <= length (results (self st')))%nat
       /\ (success = true <->
           count_passed (results (self st')) = length (results (self st')))
       /\ (success = true <->
           forall v, In v (results (self st')) -> passed v = true))
  /\ (forall args : Args,
        exists (success : bool) (st' : Process),
          run_all_tests target (start args) = (Ok success, st')
          /\ main target args = ((if success then 0 else 1), st')
          /\ (fst (main target args) = 0 <-> success = true)
          /\ (success = false -> fst (main target args) = 1)).
Proof.
  split.
  - intros st. destruct (run_all_tests_summary target st) as [st' [Hrun _]].
    eexists; exists st'. split; [exact Hrun|]. split; [|split].
    + apply count_passed_le.
    + apply Nat.eqb_eq.
    + rewrite <- count_passed_all. apply Nat.eqb_eq.
  - intros args. destruct (main_summary target args) as [st' [Hmain [Hrun _]]].
    eexists; exists st'. split; [exact Hrun|]. split; [exact Hmain|].
    rewrite Hmain. cbn [fst].
    destruct (count_passed _ =? length _)%nat; split.
    + split; reflexivity.
    + discriminate.
    + split; discriminate.
    + reflexivity.
Qed.

(** C5.  Every call of [run_all_tests] appends exactly nine verdicts to
    [self.results], whatever the status, body or transport outcome of any
    request: one for availability, one for health, one per protected query
    (two), one for demo mode, one per bypass attempt (three) and one for
    rate limiting, in this order. *)
Theorem nine_verdicts (st : Process) :
  exists (success : bool) (st' : Process) (vs : list TestResult),
    run_all_tests target st = (Ok success, st')
    /\ results (self st') = (results (self st) ++ vs)%list
    /\ length vs = 9%nat
    /\ length vs = (1 + 1 + length protected_queries + 1
                    + length bypass_attempts + 1)%nat
    /\ map name vs =
       [ "GraphQL Endpoint Available";
         "Health Endpoint No Auth Required";
         "Protected Query 1 Requires Auth";
         "Protected Query 2 Requires Auth";
         "Demo Mode Detection";
         "Bypass Attempt 1 Blocked";
         "Bypass Attempt 2 Blocked";
         "Bypass Attempt 3 Blocked";
         "Rate Limiting Active" ].
Proof.
  destruct (run_all_tests_summary target st) as [st' [Hrun Hres]].
  eexists; exists st', (run_verdicts target (self st) (requests_made st)).
  split; [exact Hrun|]. split; [exact Hres|].
  pose proof (run_verdicts_names target (self st) (requests_made st)) as Hnames.
  assert (Hlen : length (run_verdicts target (self st) (requests_made st)) = 9%nat).
  { rewrite <- (length_map name), Hnames. reflexivity. }
  split; [exact Hlen|]. split; [rewrite Hlen; reflexivity | exact Hnames].
Qed.

(** C8.  No outcome of any request makes a probe method raise: each of the
    six methods returns normally from every state, and so does
    [run_all_tests], with a boolean, after all nine probes have recorded
    their verdict in order. *)
Theorem no_exception_escapes (st : Process) :
  (exists st', _test_graphql_endpoint target st = (Ok tt, st'))
  /\ (exists st', _test_health_endpoint target st = (Ok tt, st'))
  /\ (exists st', _test_unauthenticated_requests target st = (Ok tt, st'))
  /\ (exists st', _test_demo_mode target st = (Ok tt, st'))
  /\ (exists st', _test_authorization_bypass_attempts target st = (Ok tt, st'))
  /\ (exists st', _test_rate_limiting target st = (Ok tt, st'))
  /\ (exists (success : bool) (st' : Process),
        run_all_tests target st = (Ok success, st')
        /\ map name (skipn (length (results (self st))) (results (self st'))) =
           [ "GraphQL Endpoint Available";
             "Health Endpoint No Auth Required";
             "Protected Query 1 Requires Auth";
             "Protected Query 2 Requires Auth";
             "Demo Mode Detection";
             "Bypass Attempt 1 Blocked";
             "Bypass Attempt 2 Blocked";
             "Bypass Attempt 3 Blocked";
             "Rate Limiting Active" ]).
Proof.
  repeat split.
  - eexists. apply _test_graphql_endpoint_runs.
  - eexists. apply _test_health_endpoint_runs.
  - eexists. apply _test_unauthenticated_requests_runs.
  - eexists. apply _test_demo_mode_runs.
  - eexists. apply _test_authorization_bypass_attempts_runs.
  - eexists. apply _test_rate_limiting_runs.
  - destruct (run_all_tests_summary target st) as [st' [Hrun Hres]].
    eexists; exists st'. split; [exact Hrun|].
    rewrite Hres, skipn_app, skipn_all, Nat.sub_diag. simpl skipn.
    apply run_verdicts_names.
Qed.

End Run.

(* ================================================================== *)
(** * Properties of the probes *)

Lemma mentions_auth_iff `{PyText} (error : json) :
  mentions_auth error = true <->
  is_substring "auth" (str_lower (py_str error))
  \/ is_substring "permission" (str_lower (py_str error)).
Proof.
  unfold mentions_auth. now rewrite orb_true_iff, !contains_iff.
Qed.

(** ** The burst *)

Lemma rapid_statuses_ok_iff (outcomes : list (Result Response)) :
  (exists codes, rapid_statuses outcomes = Ok codes) <->
  (forall o, In o outcomes -> exists response, o = Ok response).
Proof.
  induction outcomes as [|[response|e] rest IH]; cbn [rapid_statuses].
  - split; [intros _ o [] | intros _; now exists []].
  - split.
    + intros [codes H] o [<-|Hin]; [now exists response|].
      apply IH; [|exact Hin].
      destruct (rapid_statuses rest) as [codes'|e]; [now exists codes' | discriminate].
    + intros H. destruct (proj2 IH) as [codes' Hrest].
      { intros o Hin. apply H. now right. }
      rewrite Hrest. now eexists.
  - split.
    + intros [codes H]. discriminate.
    + intros H. destruct (H (Raise e) (or_introl eq_refl)) as [r Hr]. discriminate.
Qed.

Lemma rapid_statuses_429 (outcomes : list (Result Response)) :
  forall codes,
    rapid_statuses outcomes = Ok codes ->
    (existsb (fun status => status =? 429) codes = true <->
     exists response, In (Ok response) outcomes /\ status_code response = 429).
Proof.
  induction outcomes as [|[response|e] rest IH]; cbn [rapid_statuses]; intros codes H.
  - injection H as <-. split; [discriminate | intros [r [[] _]]].
  - destruct (rapid_statuses rest) as [codes'|e]; [|discriminate].
    injection H as <-. cbn [existsb and_then]. rewrite orb_true_iff, (IH codes' eq_refl).
    split.
    + intros [Hcode|[r [Hin Hr]]].
      * exists response. split; [now left | now apply Z.eqb_eq].
      * exists r. split; [now right | exact Hr].
    + intros [r [[Heq|Hin] Hr]].
      * injection Heq as <-. left. now apply Z.eqb_eq.
      * right. now exists r.
  - discriminate.
Qed.

Lemma rapid_first_error (oks rest : list (Result Response)) (e : PyExc) :
  (forall o, In o oks -> exists response, o = Ok response) ->
  rapid_statuses (oks ++ Raise e :: rest) = Raise e
  /\ rapid_issued (oks ++ Raise e :: rest) = S (length oks).
Proof.
  induction oks as [|o oks IH]; intros H; cbn [app rapid_statuses rapid_issued length].
  - split; reflexivity.
  - destruct (H o (or_introl eq_refl)) as [response ->].
    destruct IH as [IH1 IH2]; [intros o' Hin; apply H; now right|].
    rewrite IH1, IH2. split; reflexivity.
Qed.

Lemma in_burst (target : World) (request : Request) (n count : nat)
               (o : Result Response) :
  In o (burst target request n count) <->
  exists k, (k < count)%nat /\ o = target (k + n)%nat request.
Proof.
  unfold burst. rewrite in_map_iff. split.
  - intros [m [<- Hin]]. apply in_seq in Hin. exists (m - n)%nat.
    split; [lia|]. f_equal. lia.
  - intros [k [Hk ->]]. exists (k + n)%nat. split; [reflexivity|].
    apply in_seq. lia.
Qed.

Lemma burst_split (target : World) (request : Request) (n count k : nat) :
  (k < count)%nat ->
  burst target request n count =
  (burst target request n k
   ++ target (k + n)%nat request :: burst target request (S (k + n)) (count - S k))%list.
Proof.
  intros Hk. unfold burst.
  replace count with (k + S (count - S k))%nat at 1 by lia.
  rewrite seq_app, map_app. cbn [seq map].
  now rewrite (Nat.add_comm n k).
Qed.

Lemma burst_length (target : World) (request : Request) (n count : nat) :
  length (burst target request n count) = count.
Proof. unfold burst. now rewrite length_map, length_seq. Qed.

Section Probes.
Context {text : PyText}.
Variable target : World.

(** C3.  A protected-query probe appends one verdict, and that verdict is
    passed if and only if the request returned status 200 with a JSON
    object whose ['errors'] member is a collection in which some element's
    lower-cased string form contains "auth" or "permission".  A 200
    response whose JSON object has no ['errors'] member gives a failed
    verdict that carries the status code and the security-issue message,
    not the message of a failed test. *)
Theorem protected_query_classification (i : nat) (query : string) (st : Process) :
  exists v : TestResult,
    unauthenticated_request target i query st = (Ok tt, record_verdict v 1 st)
    /\ (passed v = true <->
        exists response members errors each,
          outcome_of target st query = Ok response
          /\ status_code response = 200
          /\ json_ response = Ok (JDict members)
          /\ dict_get "errors" members = Some errors
          /\ py_iter errors = Ok each
          /\ exists error, In error each
             /\ (is_substring "auth" (str_lower (py_str error))
                 \/ is_substring "permission" (str_lower (py_str error))))
    /\ (forall response members,
          outcome_of target st query = Ok response ->
          status_code response = 200 ->
          json_ response = Ok (JDict members) ->
          dict_get "errors" members = None ->
          v = mk_result (protected_name i) false
                "Protected query returned success without auth - security issue!"
                (Some 200)
          /\ String.prefix "Test failed: " (message v) = false).
Proof.
  exists (protected_verdict i (outcome_of target st query)).
  split; [apply unauthenticated_request_runs|]. split.
  - unfold protected_verdict. split.
    + destruct (outcome_of target st query) as [response|e]; [|discriminate].
      destruct (status_code response =? 200) eqn:Hcode; [|discriminate].
      apply Z.eqb_eq in Hcode.
      destruct (json_ response) as [data|e] eqn:Hjson; [|discriminate].
      unfold and_then, errors_scan, and_then.
      destruct data as [| | | | |items|members];
        try discriminate;
        try (cbn [py_in py_getitem];
             match goal with
             | |- context [if ?c then _ else _] => destruct c; discriminate
             end).
      cbn [py_in py_getitem].
      destruct (dict_get "errors" members) as [errors|] eqn:Hget; [|discriminate].
      destruct (py_iter errors) as [each|e] eqn:Hiter; [|discriminate].
      destruct (existsb mentions_auth each) eqn:Hany; [|discriminate].
      intros _. apply existsb_exists in Hany. destruct Hany as [error [Hin Herr]].
      exists response, members, errors, each. repeat split; try assumption.
      exists error. split; [assumption|]. now apply mentions_auth_iff.
    + intros (response & members & errors & each & Hout & Hcode & Hjson & Hget
              & Hiter & error & Hin & Herr).
      rewrite Hout, Hcode, Hjson. cbn [Z.eqb Pos.eqb and_then].
      unfold errors_scan, and_then. cbn [py_in py_getitem].
      rewrite Hget, Hiter.
      assert (Hany : existsb mentions_auth each = true).
      { apply existsb_exists. exists error. split; [assumption|].
        now apply mentions_auth_iff. }
      now rewrite Hany.
  - intros response members Hout Hcode Hjson Hget.
    unfold protected_verdict. rewrite Hout, Hcode, Hjson.
    cbn [Z.eqb Pos.eqb and_then]. unfold errors_scan, and_then. cbn [py_in].
    rewrite Hget. split; reflexivity.
Qed.

(** C7.  When the request of a bypass attempt raises (a timeout or any
    other transport error) the verdict recorded for that payload is marked
    passed; this holds for the body of the loop and for each of the three
    payloads of [_test_authorization_bypass_attempts]. *)
Theorem bypass_error_counts_as_blocked (st : Process) :
  (forall (i : nat) (query : string) (e : PyExc),
     outcome_of target st query = Raise e ->
     exists v,
       bypass_attempt target i query st = (Ok tt, record_verdict v 1 st)
       /\ passed v = true
       /\ message v = "Bypass attempt caused error (likely blocked): " ++ exc_text e)
  /\ (forall (k : nat) (query : string) (e : PyExc),
        nth_error bypass_attempts k = Some query ->
        target (k + requests_made st)%nat (graphql_request (self st) query) = Raise e ->
        exists st' v,
          _test_authorization_bypass_attempts target st = (Ok tt, st')
          /\ nth_error (results (self st')) (length (results (self st)) + k)%nat = Some v
          /\ passed v = true
          /\ message v = "Bypass attempt caused error (likely blocked): " ++ exc_text e).
Proof.
  split.
  - intros i query e Hout. eexists. split; [apply bypass_attempt_runs|].
    rewrite Hout. split; reflexivity.
  - intros k query e Hnth Hout.
    eexists; eexists. split; [apply _test_authorization_bypass_attempts_runs|].
    cbn [after self results]. rewrite nth_error_app2 by lia.
    replace (length (results (self st)) + k - length (results (self st)))%nat
      with k by lia.
    pose proof (nth_error_nth _ _ "" Hnth) as Hquery.
    assert (Hk : (k < length bypass_attempts)%nat)
      by (apply nth_error_Some; congruence).
    change (length bypass_attempts) with 3%nat in Hk.
    rewrite <- Hquery in Hout. clear Hnth Hquery.
    destruct k as [|[|[|k]]]; [| | | lia];
      cbn [Nat.add] in Hout; cbn [nth_error]; rewrite Hout;
      repeat split; reflexivity.
Qed.

(** C9.  The demo-mode probe is not merely informational: its verdict is
    passed if and only if its request returned status 200, whatever the
    body; any other status and any transport error give a failed verdict,
    and then [run_all_tests] returns [False]. *)
Theorem demo_mode_can_fail_the_run (st : Process) :
  (exists v : TestResult,
     _test_demo_mode target st = (Ok tt, record_verdict v 1 st)
     /\ name v = "Demo Mode Detection"
     /\ (passed v = true <->
         exists response,
           outcome_of target st demo_query = Ok response
           /\ status_code response = 200))
  /\ (forall (code : Z) (body body' : Result json),
        demo_verdict (Ok {| status_code := code; json_ := body |}) =
        demo_verdict (Ok {| status_code := code; json_ := body' |}))
  /\ ((~ exists response,
          target (4 + requests_made st)%nat (graphql_request (self st) demo_query)
            = Ok response
          /\ status_code response = 200) ->
      exists st', run_all_tests target st = (Ok false, st')).
Proof.
  split; [|split].
  - exists (demo_verdict (outcome_of target st demo_query)).
    split; [apply _test_demo_mode_runs|].
    unfold demo_verdict.
    destruct (outcome_of target st demo_query) as [response|e].
    + destruct (status_code response =? 200) eqn:Hcode.
      * split; [reflexivity|]. split; [|reflexivity].
        intros _. exists response. split; [reflexivity | now apply Z.eqb_eq].
      * split; [reflexivity|]. split; [discriminate|].
        intros [r [Hr Hcode']]. injection Hr as <-.
        apply Z.eqb_eq in Hcode'. congruence.
    + split; [reflexivity|]. split; [discriminate|].
      intros [r [Hr _]]. discriminate.
  - reflexivity.
  - intros Hnot.
    destruct (run_all_tests_summary target st) as [st' [Hrun Hres]].
    exists st'. rewrite Hrun. do 2 f_equal. apply Nat.eqb_neq.
    set (v := demo_verdict
                (target (4 + requests_made st)%nat
                        (graphql_request (self st) demo_query))).
    assert (Hin : In v (results (self st'))).
    { rewrite Hres. apply in_or_app. right.
      unfold run_verdicts. cbn [app map enumerate length seq combine
                                protected_queries In].
      do 4 right. left. reflexivity. }
    assert (Hv : passed v = false).
    { unfold v, demo_verdict.
      destruct (target _ _) as [response|e]; [|reflexivity].
      destruct (status_code response =? 200) eqn:Hcode; [|reflexivity].
      exfalso. apply Hnot. exists response.
      split; [reflexivity | now apply Z.eqb_eq]. }
    pose proof (count_passed_failed _ _ Hin Hv). lia.
Qed.

(** C10.  A 200 response whose JSON object binds ['errors'] to an empty
    collection is classified differently by the two kinds of probe: a
    bypass attempt passes on it, since only the presence of the member is
    tested, and a protected query fails on it, since no error mentions
    authorization. *)
Theorem empty_errors_asymmetry
    (i j : nat) (query : string) (st : Process)
    (response : Response) (members : list (string * json)) (errors : json) :
  outcome_of target st query = Ok response ->
  status_code response = 200 ->
  json_ response = Ok (JDict members) ->
  dict_get "errors" members = Some errors ->
  empty_collection errors ->
  bypass_attempt target i query st =
    (Ok tt,
     record_verdict
       (mk_result (bypass_name i) true
                  "Potential bypass attempt properly rejected" (Some 200)) 1 st)
  /\ unauthenticated_request target j query st =
    (Ok tt,
     record_verdict
       (mk_result (protected_name j) false
                  "Protected query should require authentication" (Some 200)) 1 st).
Proof.
  intros Hout Hcode Hjson Hget Hempty. split.
  - rewrite bypass_attempt_runs. unfold bypass_verdict.
    rewrite Hout, Hcode, Hjson. cbn [Z.eqb Pos.eqb and_then py_in].
    now rewrite Hget.
  - rewrite unauthenticated_request_runs. unfold protected_verdict.
    rewrite Hout, Hcode, Hjson. cbn [Z.eqb Pos.eqb and_then].
    unfold errors_scan, and_then. cbn [py_in py_getitem]. rewrite Hget.
    destruct Hempty as [-> | ->]; reflexivity.
Qed.

(** C6, as the code has it.  The rate-limit probe records one verdict.  It
    is marked passed exactly when all ten rapid requests return a response,
    whatever their status; whether one of them returned 429 then shows in
    the message only.  When a request raises (a transport error or a
    timeout) the burst stops there and the verdict is marked failed, with
    the text of the error in its message. *)
Theorem rate_limit_verdict (st : Process) :
  exists (v : TestResult) (issued : nat),
    _test_rate_limiting target st = (Ok tt, record_verdict v issued st)
    /\ name v = "Rate Limiting Active"
    /\ (passed v = true <->
        forall k, (k < 10)%nat ->
          exists response,
            target (k + requests_made st)%nat (graphql_request (self st) demo_query)
              = Ok response)
    /\ (passed v = true ->
        (message v = "Rate limiting is active (some requests returned 429)"
         \/ message v = "Rate limiting test completed (no 429s - may not be configured)")
        /\ (message v = "Rate limiting is active (some requests returned 429)" <->
            exists k response,
              (k < 10)%nat
              /\ target (k + requests_made st)%nat
                        (graphql_request (self st) demo_query) = Ok response
              /\ status_code response = 429))
    /\ (forall (k : nat) (e : PyExc),
          (k < 10)%nat ->
          (forall j, (j < k)%nat ->
             exists response,
               target (j + requests_made st)%nat
                      (graphql_request (self st) demo_query) = Ok response) ->
          target (k + requests_made st)%nat (graphql_request (self st) demo_query)
            = Raise e ->
          passed v = false
          /\ message v = "Rate limiting test failed: " ++ exc_text e
          /\ issued = S k).
Proof.
  set (request := graphql_request (self st) demo_query).
  set (n := requests_made st).
  exists (rate_verdict (burst target request n 10)),
         (rapid_issued (burst target request n 10)).
  split; [apply _test_rate_limiting_runs|].
  unfold rate_verdict.
  destruct (rapid_statuses (burst target request n 10)) as [codes|e0] eqn:Hcodes.
  - assert (Hall : forall k, (k < 10)%nat ->
                     exists response, target (k + n)%nat request = Ok response).
    { intros k Hk.
      apply (proj1 (rapid_statuses_ok_iff _) (ex_intro _ codes Hcodes)).
      apply in_burst. now exists k. }
    pose proof (rapid_statuses_429 _ _ Hcodes) as H429.
    destruct (existsb (fun status => status =? 429) codes) eqn:Hany.
    + split; [reflexivity|]. split; [tauto|]. split.
      * intros _. split; [now left|]. split; [|reflexivity].
        intros _. destruct (proj1 H429 eq_refl) as [response [Hin Hr]].
        apply in_burst in Hin. destruct Hin as [k [Hk Hin]].
        exists k, response. auto.
      * intros k e Hk _ He. destruct (Hall k Hk) as [r Hr]. congruence.
    + split; [reflexivity|]. split; [tauto|]. split.
      * intros _. split; [now right|]. split; [discriminate|].
        intros [k [response [Hk [Hr H]]]].
        assert (false = true); [|discriminate].
        apply H429. exists response. split; [|exact H].
        apply in_burst. now exists k.
      * intros k e Hk _ He. destruct (Hall k Hk) as [r Hr]. congruence.
  - split; [reflexivity|]. split; [|split].
    + split; [discriminate|]. intros Hall.
      assert (exists codes, rapid_statuses (burst target request n 10) = Ok codes)
        as [codes Hc]; [|congruence].
      apply rapid_statuses_ok_iff. intros o Hin.
      apply in_burst in Hin. destruct Hin as [k [Hk ->]]. now apply Hall.
    + discriminate.
    + intros k e Hk Hbefore He.
      rewrite (burst_split target request n 10 k Hk), He in Hcodes |- *.
      destruct (rapid_first_error (burst target request n k)
                  (burst target request (S (k + n)) (10 - S k)) e) as [H1 H2].
      { intros o Hin. apply in_burst in Hin. destruct Hin as [j [Hj ->]].
        now apply Hbefore. }
      rewrite H1 in Hcodes. injection Hcodes as <-.
      rewrite H2, burst_length. repeat split; reflexivity.
Qed.

End Probes.

(* ================================================================== *)
(** * Two scenarios *)

Lemma endpoint_verdict_passed (outcome : Result Response) :
  passed (endpoint_verdict outcome) = true <->
  exists response, outcome = Ok response /\ status_code response = 200.
Proof.
  unfold endpoint_verdict. destruct outcome as [response|e].
  - destruct (status_code response =? 200) eqn:Hcode.
    + split; [|reflexivity]. intros _. exists response.
      split; [reflexivity | now apply Z.eqb_eq].
    + split; [discriminate|]. intros [r [Hr Hc]]. injection Hr as <-.
      apply Z.eqb_eq in Hc. congruence.
  - split; [discriminate|]. intros [r [Hr _]]. discriminate.
Qed.

Lemma health_verdict_passed (outcome : Result Response) :
  passed (health_verdict outcome) = true <->
  exists response data,
    outcome = Ok response /\ status_code response = 200
    /\ json_ response = Ok data /\ health_shape data = Ok true.
Proof.
  unfold health_verdict. destruct outcome as [response|e].
  - destruct (status_code response =? 200) eqn:Hcode.
    + apply Z.eqb_eq in Hcode.
      destruct (json_ response) as [data|e] eqn:Hjson; cbn [and_then].
      * destruct (health_shape data) as [[|]|e] eqn:Hshape.
        -- split; [|reflexivity]. intros _. now exists response, data.
        -- split; [discriminate|].
           intros (r & d & Hr & _ & Hj & Hs). injection Hr as <-. congruence.
        -- split; [discriminate|].
           intros (r & d & Hr & _ & Hj & Hs). injection Hr as <-. congruence.
      * split; [discriminate|].
        intros (r & d & Hr & _ & Hj & Hs). injection Hr as <-. congruence.
    + split; [discriminate|].
      intros (r & d & Hr & Hc & _). injection Hr as <-.
      apply Z.eqb_eq in Hc. congruence.
  - split; [discriminate|]. intros (r & d & Hr & _). discriminate.
Qed.

Section Scenarios.
Context {text : PyText}.
Variable target : World.

Lemma unreachable_verdicts (me : AuthorizationVerifier) (n : nat) :
  unreachable target ->
  run_verdicts target me n =
  let text_of (k : nat) (query : string) :=
    raised (target (k + n)%nat (graphql_request me query)) in
  [ mk_result "GraphQL Endpoint Available" false
      ("Failed to connect to GraphQL endpoint: " ++ text_of 0%nat availability_query)
      None;
    mk_result "Health Endpoint No Auth Required" false
      ("Health endpoint test failed: " ++ text_of 1%nat health_query) None;
    mk_result "Protected Query 1 Requires Auth" false
      ("Test failed: " ++ text_of 2%nat (nth 0 protected_queries "")) None;
    mk_result "Protected Query 2 Requires Auth" false
      ("Test failed: " ++ text_of 3%nat (nth 1 protected_queries "")) None;
    mk_result "Demo Mode Detection" false
      ("Demo mode test failed: " ++ text_of 4%nat demo_query) None;
    mk_result "Bypass Attempt 1 Blocked" true
      ("Bypass attempt caused error (likely blocked): "
       ++ text_of 5%nat (nth 0 bypass_attempts "")) None;
    mk_result "Bypass Attempt 2 Blocked" true
      ("Bypass attempt caused error (likely blocked): "
       ++ text_of 6%nat (nth 1 bypass_attempts "")) None;
    mk_result "Bypass Attempt 3 Blocked" true
      ("Bypass attempt caused error (likely blocked): "
       ++ text_of 7%nat (nth 2 bypass_attempts "")) None;
    mk_result "Rate Limiting Active" false
      ("Rate limiting test failed: " ++ text_of 8%nat demo_query) None ].
Proof.
  intros Hdown. unfold run_verdicts, burst. cbv zeta.
  cbn [app map enumerate length seq combine protected_queries bypass_attempts nth
       Nat.add].
  repeat match goal with
         | |- context [target ?k ?r] =>
             let e := fresh "e" in
             let He := fresh "He" in
             destruct (Hdown k r) as [e He]; rewrite !He; clear He
         end.
  reflexivity.
Qed.

(** C1, as the code has it.  When every request raises a transport error,
    the run records nine verdicts, each with the text of the error its
    request raised: the availability, health, protected-query, demo-mode
    and rate-limit verdicts are marked failed, the three bypass-attempt
    verdicts are marked passed; [run_all_tests] returns [False] and the
    process exits with status 1. *)
Theorem unreachable_target_run :
  unreachable target ->
  (forall st : Process,
     exists st',
       run_all_tests target st = (Ok false, st')
       /\ results (self st') =
          (results (self st) ++
           let text_of (k : nat) (query : string) :=
             raised (target (k + requests_made st)%nat
                            (graphql_request (self st) query)) in
           [ mk_result "GraphQL Endpoint Available" false
               ("Failed to connect to GraphQL endpoint: "
                ++ text_of 0%nat availability_query) None;
             mk_result "Health Endpoint No Auth Required" false
               ("Health endpoint test failed: " ++ text_of 1%nat health_query) None;
             mk_result "Protected Query 1 Requires Auth" false
               ("Test failed: " ++ text_of 2%nat (nth 0 protected_queries "")) None;
             mk_result "Protected Query 2 Requires Auth" false
               ("Test failed: " ++ text_of 3%nat (nth 1 protected_queries "")) None;
             mk_result "Demo Mode Detection" false
               ("Demo mode test failed: " ++ text_of 4%nat demo_query) None;
             mk_result "Bypass Attempt 1 Blocked" true
               ("Bypass attempt caused error (likely blocked): "
                ++ text_of 5%nat (nth 0 bypass_attempts "")) None;
             mk_result "Bypass Attempt 2 Blocked" true
               ("Bypass attempt caused error (likely blocked): "
                ++ text_of 6%nat (nth 1 bypass_attempts "")) None;
             mk_result "Bypass Attempt 3 Blocked" true
               ("Bypass attempt caused error (likely blocked): "
                ++ text_of 7%nat (nth 2 bypass_attempts "")) None;
             mk_result "Rate Limiting Active" false
               ("Rate limiting test failed: " ++ text_of 8%nat demo_query) None ])%list)
  /\ (forall args : Args, fst (main target args) = 1).
Proof.
  intros Hdown.
  assert (Hrun : forall st, exists st',
             run_all_tests target st = (Ok false, st')
             /\ results (self st') =
                (results (self st)
                 ++ run_verdicts target (self st) (requests_made st))%list).
  { intros st. destruct (run_all_tests_summary target st) as [st' [Hrun Hres]].
    exists st'. split; [|exact Hres]. rewrite Hrun. do 2 f_equal.
    apply Nat.eqb_neq.
    assert (Hlt : (count_passed (results (self st')) < length (results (self st')))%nat);
      [|lia].
    apply count_passed_failed
      with (v := endpoint_verdict
                   (target (0 + requests_made st)%nat
                           (graphql_request (self st) availability_query))).
    - rewrite Hres. apply in_or_app. right. now left.
    - destruct (Hdown (0 + requests_made st)%nat
                      (graphql_request (self st) availability_query)) as [e ->].
      reflexivity. }
  split.
  - intros st. destruct (Hrun st) as [st' [H1 H2]]. exists st'.
    split; [exact H1|]. rewrite H2. f_equal. now apply unreachable_verdicts.
  - intros args. destruct (Hrun (start args)) as [st' [H1 _]].
    unfold main. now rewrite H1.
Qed.

Lemma gateway_verdicts (me : AuthorizationVerifier) (n : nat) :
  (forall query, In query (protected_queries ++ bypass_attempts) ->
                 answers_with target 401 query) ->
  run_verdicts target me n =
  [ endpoint_verdict (target n (graphql_request me availability_query));
    health_verdict (target (S n) (graphql_request me health_query));
    mk_result "Protected Query 1 Requires Auth" false
              "Unexpected status code: 401" (Some 401);
    mk_result "Protected Query 2 Requires Auth" false
              "Unexpected status code: 401" (Some 401);
    demo_verdict (target (4 + n)%nat (graphql_request me demo_query));
    mk_result "Bypass Attempt 1 Blocked" true
              "Bypass attempt rejected with status 401" (Some 401);
    mk_result "Bypass Attempt 2 Blocked" true
              "Bypass attempt rejected with status 401" (Some 401);
    mk_result "Bypass Attempt 3 Blocked" true
              "Bypass attempt rejected with status 401" (Some 401);
    rate_verdict (burst target (graphql_request me demo_query) (8 + n) 10) ].
Proof.
  intros H401.
  assert (Hask : forall k query,
             In query (protected_queries ++ bypass_attempts) ->
             exists response,
               target k (graphql_request me query) = Ok response
               /\ status_code response = 401).
  { intros k query Hin. now apply (H401 query Hin k). }
  unfold run_verdicts.
  cbn [app map enumerate length seq combine protected_queries bypass_attempts
       Nat.add].
  repeat f_equal.
  all: match goal with
       | |- context [target ?k (graphql_request _ ?q)] =>
           destruct (Hask k q) as [response [-> Hcode]];
           [cbn [app In protected_queries bypass_attempts]; tauto|]
       end.
  all: unfold protected_verdict, bypass_verdict; rewrite Hcode; reflexivity.
Qed.

(** C2, as the code has it.  When the target answers every protected query
    and every bypass payload with status 401, the three bypass-attempt
    verdicts are marked passed, but both protected-query verdicts are
    marked failed ("Unexpected status code: 401"), so the run fails; the
    availability and health verdicts still follow their own rules, which
    ask for status 200. *)
Theorem all_401_run (st : Process) :
  (forall query, In query (protected_queries ++ bypass_attempts) ->
                 answers_with target 401 query) ->
  exists (st' : Process) (availability health demo rate : TestResult),
    run_all_tests target st = (Ok false, st')
    /\ results (self st') =
       (results (self st) ++
        [ availability;
          health;
          mk_result "Protected Query 1 Requires Auth" false
                    "Unexpected status code: 401" (Some 401);
          mk_result "Protected Query 2 Requires Auth" false
                    "Unexpected status code: 401" (Some 401);
          demo;
          mk_result "Bypass Attempt 1 Blocked" true
                    "Bypass attempt rejected with status 401" (Some 401);
          mk_result "Bypass Attempt 2 Blocked" true
                    "Bypass attempt rejected with status 401" (Some 401);
          mk_result "Bypass Attempt 3 Blocked" true
                    "Bypass attempt rejected with status 401" (Some 401);
          rate ])%list
    /\ (passed availability = true <->
        exists response,
          target (requests_made st) (graphql_request (self st) availability_query)
            = Ok response
          /\ status_code response = 200)
    /\ (passed health = true <->
        exists response data,
          target (S (requests_made st)) (graphql_request (self st) health_query)
            = Ok response
          /\ status_code response = 200
          /\ json_ response = Ok data
          /\ health_shape data = Ok true).
Proof.
  intros H401.
  destruct (run_all_tests_summary target st) as [st' [Hrun Hres]].
  rewrite (gateway_verdicts _ _ H401) in Hres.
  exists st'. do 4 eexists.
  split; [|split; [exact Hres|split]].
  - rewrite Hrun. do 2 f_equal. apply Nat.eqb_neq.
    assert (Hlt : (count_passed (results (self st')) < length (results (self st')))%nat);
      [|lia].
    apply count_passed_failed
      with (v := mk_result "Protected Query 1 Requires Auth" false
                           "Unexpected status code: 401" (Some 401));
      [|reflexivity].
    rewrite Hres. apply in_or_app. right. cbn [In]. tauto.
  - apply endpoint_verdict_passed.
  - apply health_verdict_passed.
Qed.

End Scenarios.

(* ================================================================== *)
(** * The harness at work *)

Example well_behaved_run :
  fst (main (text := ascii_text) well_behaved default_args) = 0
  /\ report (H := ascii_text) well_behaved =
     [ ("GraphQL Endpoint Available", true);
       ("Health Endpoint No Auth Required", true);
       ("Protected Query 1 Requires Auth", true);
       ("Protected Query 2 Requires Auth", true);
       ("Demo Mode Detection", true);
       ("Bypass Attempt 1 Blocked", true);
       ("Bypass Attempt 2 Blocked", true);
       ("Bypass Attempt 3 Blocked", true);
       ("Rate Limiting Active", true) ].
Proof. split; vm_compute; reflexivity. Qed.

Example str_of_rejection :
  py_str (text := ascii_text)
         (JDict [("message", JStr "Authentication required"); ("path", JList [JInt 3])])
  = "{'message': 'Authentication required', 'path': [3]}".
Proof. reflexivity. Qed.

Lemma down_is_unreachable : unreachable down.
Proof. intros n request. exists refused. reflexivity. Qed.

Lemma guarded_401_answers :
  forall query, In query (protected_queries ++ bypass_attempts) ->
                answers_with guarded_401 401 query.
Proof.
  intros query Hin n request Hquery. unfold guarded_401, is_guarded.
  rewrite Hquery.
  assert (Hguard : existsb (String.eqb query) (protected_queries ++ bypass_attempts) = true).
  { apply existsb_exists. exists query. split; [exact Hin | apply String.eqb_refl]. }
  rewrite Hguard. eexists. split; reflexivity.
Qed.

(** C1 does not hold as stated: against a target that refuses every
    connection, the three bypass-attempt verdicts are marked passed. *)
Lemma unreachable_target_bypass_verdicts_pass :
  unreachable down
  /\ fst (main (text := ascii_text) down default_args) = 1
  /\ report (H := ascii_text) down =
     [ ("GraphQL Endpoint Available", false);
       ("Health Endpoint No Auth Required", false);
       ("Protected Query 1 Requires Auth", false);
       ("Protected Query 2 Requires Auth", false);
       ("Demo Mode Detection", false);
       ("Bypass Attempt 1 Blocked", true);
       ("Bypass Attempt 2 Blocked", true);
       ("Bypass Attempt 3 Blocked", true);
       ("Rate Limiting Active", false) ]
  /\ ~ (forall v, In v (results (self (snd (main (text := ascii_text) down default_args)))) ->
                  passed v = false).
Proof.
  split; [exact down_is_unreachable|]. split; [vm_compute; reflexivity|].
  split; [vm_compute; reflexivity|].
  intros Hall.
  specialize (Hall (mk_result "Bypass Attempt 1 Blocked" true
                      "Bypass attempt caused error (likely blocked): Connection refused"
                      None)).
  assert (true = false); [|discriminate].
  apply Hall. vm_compute. tauto.
Qed.

Lemma unreachable_target_run_witness :
  unreachable down
  /\ fst (main (text := ascii_text) down default_args) = 1.
Proof.
  split.
  - exact down_is_unreachable.
  - exact (proj2 (unreachable_target_run (text := ascii_text) down down_is_unreachable)
                 default_args).
Defined.

(** C2 does not hold as stated: when every protected query and every
    bypass payload is answered with 401, the two protected-query verdicts
    are marked failed. *)
Lemma all_401_protected_verdicts_fail :
  (forall query, In query (protected_queries ++ bypass_attempts) ->
                 answers_with guarded_401 401 query)
  /\ report (H := ascii_text) guarded_401 =
     [ ("GraphQL Endpoint Available", true);
       ("Health Endpoint No Auth Required", true);
       ("Protected Query 1 Requires Auth", false);
       ("Protected Query 2 Requires Auth", false);
       ("Demo Mode Detection", true);
       ("Bypass Attempt 1 Blocked", true);
       ("Bypass Attempt 2 Blocked", true);
       ("Bypass Attempt 3 Blocked", true);
       ("Rate Limiting Active", true) ]
  /\ fst (main (text := ascii_text) guarded_401 default_args) = 1.
Proof.
  split; [exact guarded_401_answers|]. split; vm_compute; reflexivity.
Qed.

Lemma all_401_run_witness :
  (forall query, In query (protected_queries ++ bypass_attempts) ->
                 answers_with guarded_401 401 query)
  /\ exists st', run_all_tests (text := ascii_text) guarded_401 fresh = (Ok false, st').
Proof.
  split.
  - exact guarded_401_answers.
  - destruct (all_401_run (text := ascii_text) guarded_401 fresh guarded_401_answers)
      as (st' & _ & _ & _ & _ & Hrun & _).
    exists st'. exact Hrun.
Defined.

Example rejected_query_passes :
  last_verdict
    (snd (unauthenticated_request (text := ascii_text)
            (always 200 (Ok rejected_body)) 0 (nth 0 protected_queries "") fresh))
  = Some (mk_result "Protected Query 1 Requires Auth" true
                    "Protected query correctly rejected without auth" (Some 200)).
Proof. reflexivity. Qed.

Lemma protected_query_classification_witness :
  exists v,
    unauthenticated_request (text := ascii_text)
      (always 200 (Ok leak_body)) 0 (nth 0 protected_queries "") fresh
    = (Ok tt, record_verdict v 1 fresh)
    /\ v = mk_result "Protected Query 1 Requires Auth" false
             "Protected query returned success without auth - security issue!"
             (Some 200)
    /\ String.prefix "Test failed: " (message v) = false.
Proof.
  destruct (protected_query_classification (text := ascii_text)
              (always 200 (Ok leak_body)) 0 (nth 0 protected_queries "") fresh)
    as [v [Hrun [_ Hleak]]].
  exists v. split; [exact Hrun|].
  exact (Hleak {| status_code := 200; json_ := Ok leak_body |}
               [("data", JDict [("notes", JDict [("edges", JList [])])])]
               eq_refl eq_refl eq_refl eq_refl).
Defined.

(** C6 does not hold as stated: when the third rapid request times out, the
    rate-limit verdict is marked failed. *)
Lemma rate_limit_probe_fails_on_timeout :
  last_verdict (snd (_test_rate_limiting (fails_at 2) fresh))
  = Some (mk_result "Rate Limiting Active" false
            "Rate limiting test failed: Read timed out. (read timeout=10.0)" None)
  /\ requests_made (snd (_test_rate_limiting (fails_at 2) fresh)) = 3%nat.
Proof. split; reflexivity. Qed.

Lemma rate_limit_verdict_witness :
  exists v issued,
    _test_rate_limiting (fails_at 2) fresh = (Ok tt, record_verdict v issued fresh)
    /\ passed v = false
    /\ message v = "Rate limiting test failed: Read timed out. (read timeout=10.0)"
    /\ issued = 3%nat.
Proof.
  destruct (rate_limit_verdict (fails_at 2) fresh)
    as (v & issued & Hrun & _ & _ & _ & Hfail).
  exists v, issued. split; [exact Hrun|].
  apply (Hfail 2%nat timed_out).
  - lia.
  - intros j Hj. destruct j as [|[|j]].
    + eexists. reflexivity.
    + eexists. reflexivity.
    + exfalso. lia.
  - reflexivity.
Defined.

Example throttled_burst_passes :
  last_verdict (snd (_test_rate_limiting (throttles_from 5) fresh))
  = Some (mk_result "Rate Limiting Active" true
            "Rate limiting is active (some requests returned 429)" None).
Proof. reflexivity. Qed.

Lemma bypass_error_counts_as_blocked_witness :
  outcome_of down fresh (nth 0 bypass_attempts "") = Raise refused
  /\ exists v,
       bypass_attempt down 0 (nth 0 bypass_attempts "") fresh
       = (Ok tt, record_verdict v 1 fresh)
       /\ passed v = true
       /\ message v = "Bypass attempt caused error (likely blocked): Connection refused".
Proof.
  split.
  - reflexivity.
  - exact (proj1 (bypass_error_counts_as_blocked down fresh)
                 0%nat (nth 0 bypass_attempts "") refused eq_refl).
Defined.

Lemma demo_mode_can_fail_the_run_witness :
  exists st', run_all_tests (text := ascii_text) (fails_at 4) fresh = (Ok false, st').
Proof.
  apply (proj2 (proj2 (demo_mode_can_fail_the_run (text := ascii_text) (fails_at 4) fresh))).
  intros [response [Hresponse _]]. vm_compute in Hresponse. discriminate.
Defined.

Lemma empty_errors_asymmetry_witness :
  empty_collection (JList [])
  /\ bypass_attempt
       (always 200 (Ok empty_errors_body)) 0 (nth 0 protected_queries "") fresh
     = (Ok tt,
        record_verdict
          (mk_result "Bypass Attempt 1 Blocked" true
                     "Potential bypass attempt properly rejected" (Some 200)) 1 fresh)
  /\ unauthenticated_request (text := ascii_text)
       (always 200 (Ok empty_errors_body)) 0 (nth 0 protected_queries "") fresh
     = (Ok tt,
        record_verdict
          (mk_result "Protected Query 1 Requires Auth" false
                     "Protected query should require authentication" (Some 200)) 1 fresh).
Proof.
  split; [left; reflexivity|].
  exact (empty_errors_asymmetry (text := ascii_text)
           (always 200 (Ok empty_errors_body)) 0 0 (nth 0 protected_queries "") fresh
           {| status_code := 200; json_ := Ok empty_errors_body |}
           [("data", JNull); ("errors", JList [])] (JList [])
           eq_refl eq_refl eq_refl eq_refl (or_introl eq_refl)).
Defined.

(* ================================================================== *)
(** * Further properties: the report *)

Lemma printed_same (st : Process) : printed st (stdout st) = st.
Proof. now destruct st. Qed.

Lemma for_each_render (rs : list TestResult) :
  forall st : Process,
    for_each rs
      (fun result =>
         let status := if passed result then "✅" else "❌" in
         let code := code_suffix (response_code result) in
         print (status ++ " " ++ name result ++ code) ;;
         print ("   " ++ message result) ;;
         print "") st
    = (Ok tt, printed st (stdout st ++ flat_map render_result rs)).
Proof.
  induction rs as [|r rs IH]; intros st; cbn [for_each flat_map].
  - unfold ret. now rewrite app_nil_r, printed_same.
  - unfold bind at 1. cbv zeta. unfold bind at 1. unfold print at 1.
    unfold bind at 1. unfold print at 1. unfold print at 1.
    rewrite IH. unfold printed, render_result.
    cbn [self requests_made stdout app].
    now rewrite <- !app_assoc.
Qed.

Lemma flat_map_render_length (rs : list TestResult) :
  length (flat_map render_result rs) = (3 * length rs)%nat.
Proof.
  induction rs as [|r rs IH]; [reflexivity|].
  cbn [flat_map render_result app length]. rewrite IH. lia.
Qed.

Lemma _print_results_lines (st : Process) :
  _print_results st
  = (Ok tt, printed st (stdout st ++ report_lines (results (self st)))).
Proof.
  unfold _print_results.
  unfold bind at 1. unfold print at 1.
  unfold bind at 1. unfold print at 1.
  unfold bind at 1. unfold get_self at 1.
  cbn [self requests_made stdout].
  match goal with
  | |- for_each ?rs ?body ?s = _ =>
      change (for_each rs body s) with
        (for_each rs
           (fun result =>
              let status := if passed result then "✅" else "❌" in
              let code := code_suffix (response_code result) in
              print (status ++ " " ++ name result ++ code) ;;
              print ("   " ++ message result) ;;
              print "") s)
  end.
  rewrite for_each_render. unfold printed, report_lines.
  cbn [self requests_made stdout]. now rewrite <- !app_assoc.
Qed.

(** X1.  [_print_results] prints a two-line heading and then three lines
    per verdict held by the verifier, in order: the glyph, name and status
    code, the message, and an empty line.  It changes neither the verdicts
    nor the number of requests made. *)
Theorem print_results_output (st : Process) :
  exists st',
    _print_results st = (Ok tt, st')
    /\ self st' = self st
    /\ requests_made st' = requests_made st
    /\ stdout st' = (stdout st ++ report_lines (results (self st)))%list
    /\ length (stdout st') =
       (length (stdout st) + 2 + 3 * length (results (self st)))%nat.
Proof.
  eexists. split; [apply _print_results_lines|].
  cbn [printed self requests_made stdout]. repeat split.
  unfold report_lines. rewrite !length_app, flat_map_render_length.
  cbn [length]. lia.
Qed.

Section Transcript.
Context {text : PyText}.
Variable target : World.

(** The run, with everything it prints. *)
Lemma run_all_tests_exact (st : Process) :
  run_all_tests target st =
  (Ok (count_passed (results (self st)
                     ++ run_verdicts target (self st) (requests_made st))
       =? length (results (self st)
                  ++ run_verdicts target (self st) (requests_made st)))%nat,
   after st
     (run_verdicts target (self st) (requests_made st))
     (rapid_issued
        (burst target (graphql_request (self st) demo_query)
               (8 + requests_made st) 10) + 8)
     (stdout st
      ++ transcript (base_url (self st))
           (results (self st)
            ++ run_verdicts target (self st) (requests_made st)))).
Proof.
  destruct st as [[h b t rs] n out].
  unfold run_all_tests.
  erewrite bind_ok by reflexivity. tidy.
  erewrite bind_ok by reflexivity. tidy.
  erewrite bind_ok by reflexivity. tidy.
  rewrite (bind_ok _ _ _ _ _ (_test_graphql_endpoint_runs _ _)). tidy.
  rewrite (bind_ok _ _ _ _ _ (_test_health_endpoint_runs _ _)). tidy.
  rewrite (bind_ok _ _ _ _ _ (_test_unauthenticated_requests_runs _ _)). tidy.
  rewrite (bind_ok _ _ _ _ _ (_test_demo_mode_runs _ _)). tidy.
  rewrite (bind_ok _ _ _ _ _ (_test_authorization_bypass_attempts_runs _ _)). tidy.
  rewrite (bind_ok _ _ _ _ _ (_test_rate_limiting_runs _ _)). tidy.
  rewrite (bind_ok _ _ _ _ _ (_print_results_lines _)). tidy.
  erewrite bind_ok by reflexivity. tidy.
  match goal with
  | |- context [count_passed ?l] =>
      assert (E : l = (rs ++ run_verdicts target
                          {| host := h; base_url := b; timeout := t; results := rs |}
                          n)%list)
        by (rewrite <- !app_assoc; reflexivity);
      rewrite !E; clear E
  end.
  erewrite bind_ok by reflexivity. tidy.
  replace (rapid_issued
             (burst target
                {| req_url := b ++ "/graphql"; req_query := demo_query;
                   req_timeout := t |} (S (S (S (S (S (S (S (S n)))))))) 10)
           + 8 + n)%nat
    with (rapid_issued
            (burst target
               {| req_url := b ++ "/graphql"; req_query := demo_query;
                  req_timeout := t |} (S (S (S (S (S (S (S (S n)))))))) 10)
          + S (S (S (S (S (S (S (S n))))))))%nat by lia.
  unfold transcript, closing_lines.
  destruct (count_passed _ =? length _)%nat;
    erewrite bind_ok by reflexivity; unfold ret; tidy;
    rewrite <- !app_assoc; reflexivity.
Qed.

End Transcript.

(* ================================================================== *)
(** * Further properties: the run as a whole *)

Lemma last_two {A} (xs : list A) (a b d : A) : last (xs ++ [a; b]) d = b.
Proof.
  change [a; b] with ([a] ++ [b])%list. rewrite app_assoc. apply last_last.
Qed.

Lemma count_passed_app (rs rs' : list TestResult) :
  count_passed (rs ++ rs') = (count_passed rs + count_passed rs')%nat.
Proof. unfold count_passed. now rewrite filter_app, length_app. Qed.

Lemma rapid_issued_bounds (outcomes : list (Result Response)) :
  outcomes <> [] ->
  (1 <= rapid_issued outcomes <= length outcomes)%nat.
Proof.
  induction outcomes as [|[response|e] rest IH]; intros Hne.
  - contradiction.
  - cbn [rapid_issued length]. destruct rest as [|o rest].
    + cbn. lia.
    + assert (H : (1 <= rapid_issued (o :: rest) <= length (o :: rest))%nat)
        by (apply IH; discriminate).
      lia.
  - cbn [rapid_issued length]. lia.
Qed.

Lemma rapid_issued_all (outcomes : list (Result Response)) :
  (forall o, In o outcomes -> exists response, o = Ok response) ->
  rapid_issued outcomes = length outcomes.
Proof.
  induction outcomes as [|o rest IH]; intros H; [reflexivity|].
  destruct (H o (or_introl eq_refl)) as [response ->].
  cbn [rapid_issued length]. f_equal. apply IH. intros o' Hin. apply H. now right.
Qed.

Lemma burst_agree (target target' : World) (url : string) (wait : Q)
                  (query : string) (first count : nat) :
  agree_at url wait target target' ->
  burst target {| req_url := url; req_query := query; req_timeout := wait |}
        first count
  = burst target' {| req_url := url; req_query := query; req_timeout := wait |}
          first count.
Proof. intros H. unfold burst. apply map_ext. intros k. apply H. Qed.

Section Whole.
Context {text : PyText}.

Lemma run_verdicts_agree (target target' : World) (me : AuthorizationVerifier) (n : nat) :
  agree_at (base_url me ++ "/graphql") (timeout me) target target' ->
  run_verdicts target me n = run_verdicts target' me n.
Proof.
  intros H. unfold run_verdicts, graphql_request.
  cbn [map enumerate combine seq length protected_queries bypass_attempts app].
  rewrite !H. now rewrite (burst_agree target target' _ _ _ _ _ H).
Qed.

(** X2.  A run prints, after what was printed before, a banner with the
    base URL, the report of every verdict the verifier holds, the count
    "passed/total", and a last line that says PASSED exactly when the run
    returns [True] and FAILED exactly when it returns [False]: six lines
    plus three per verdict. *)
Theorem run_transcript (target : World) (st : Process) :
  exists (success : bool) (st' : Process),
    run_all_tests target st = (Ok success, st')
    /\ stdout st' =
       (stdout st ++ transcript (base_url (self st)) (results (self st')))%list
    /\ length (stdout st') =
       (length (stdout st) + 6 + 3 * length (results (self st')))%nat
    /\ (last (stdout st') "" = "✅ All authorization tests PASSED" <-> success = true)
    /\ (last (stdout st') "" = "❌ Some authorization tests FAILED" <-> success = false).
Proof.
  eexists; eexists. split; [apply run_all_tests_exact|].
  cbn [after self results stdout].
  set (rs := (results (self st)
              ++ run_verdicts target (self st) (requests_made st))%list).
  split; [reflexivity|]. split.
  - unfold transcript, report_lines, closing_lines.
    rewrite !length_app, flat_map_render_length. cbn [length]. lia.
  - unfold transcript, closing_lines.
    rewrite !app_assoc, last_two.
    destruct (count_passed rs =? length rs)%nat; split; split;
      try reflexivity; try discriminate.
Qed.

(** X3.  The harness talks to one place only: a run depends on the target
    through nothing but the answers to requests for [base_url + "/graphql"]
    made with the verifier's timeout.  For [main] that URL is
    ["http://" + host + "/graphql"], or ["https://..."] with [--ssl]. *)
Theorem only_the_graphql_endpoint (target target' : World) :
  (forall st : Process,
     agree_at (base_url (self st) ++ "/graphql") (timeout (self st)) target target' ->
     run_all_tests target st = run_all_tests target' st)
  /\ (forall args : Args,
        agree_at (((if args_ssl args then "https" else "http") ++ "://"
                   ++ args_host args) ++ "/graphql")
                 (args_timeout args) target target' ->
        main target args = main target' args).
Proof.
  assert (Hrun : forall st : Process,
             agree_at (base_url (self st) ++ "/graphql") (timeout (self st))
                      target target' ->
             run_all_tests target st = run_all_tests target' st).
  { intros st H. rewrite !run_all_tests_exact.
    rewrite (run_verdicts_agree target target' _ _ H).
    unfold graphql_request.
    now rewrite (burst_agree target target' _ _ _ _ _ H). }
  split; [exact Hrun|].
  intros args H. unfold main. rewrite (Hrun (start args)); [reflexivity|].
  exact H.
Qed.

(** X4.  No probe retries: the availability, health and demo-mode probes
    issue exactly one request each, the protected-query probe two, the
    bypass probe three, whatever happens to them; a whole run issues at
    least nine and at most eighteen requests, and exactly eighteen when
    every request of the rate-limit burst returns. *)
Theorem requests_per_run (target : World) (st : Process) :
  requests_made (snd (_test_graphql_endpoint target st)) = S (requests_made st)
  /\ requests_made (snd (_test_health_endpoint target st)) = S (requests_made st)
  /\ requests_made (snd (_test_unauthenticated_requests target st))
     = (2 + requests_made st)%nat
  /\ requests_made (snd (_test_demo_mode target st)) = S (requests_made st)
  /\ requests_made (snd (_test_authorization_bypass_attempts target st))
     = (3 + requests_made st)%nat
  /\ (requests_made st + 9 <= requests_made (snd (run_all_tests target st))
      <= requests_made st + 18)%nat
  /\ ((forall k, (k < 10)%nat ->
         exists response,
           target (k + (8 + requests_made st))%nat
                  (graphql_request (self st) demo_query) = Ok response) ->
      requests_made (snd (run_all_tests target st)) = (requests_made st + 18)%nat).
Proof.
  rewrite _test_graphql_endpoint_runs, _test_health_endpoint_runs,
    _test_unauthenticated_requests_runs, _test_demo_mode_runs,
    _test_authorization_bypass_attempts_runs, run_all_tests_exact.
  cbn [snd record_verdict after requests_made].
  do 5 (split; [reflexivity|]).
  set (outcomes := burst target (graphql_request (self st) demo_query)
                         (8 + requests_made st) 10).
  assert (Hlen : length outcomes = 10%nat) by apply burst_length.
  split.
  - assert (Hne : outcomes <> []) by (intros E; rewrite E in Hlen; discriminate).
    pose proof (rapid_issued_bounds outcomes Hne). lia.
  - intros Hall. rewrite rapid_issued_all; [lia|].
    intros o Hin. apply in_burst in Hin. destruct Hin as [k [Hk ->]].
    now apply Hall.
Qed.

(** X5.  [self.results] is never cleared.  When [run_all_tests] is called
    again on the same verifier, the verdicts of the first run are counted
    again: the verifier then holds eighteen more verdicts than at first,
    and the second call can return [True] only if the first one did, even
    against a target that now behaves. *)
Theorem verdicts_accumulate
    (target target' : World) (st st1 st2 : Process) (first second : bool) :
  run_all_tests target st = (Ok first, st1) ->
  run_all_tests target' st1 = (Ok second, st2) ->
  length (results (self st2)) = (length (results (self st)) + 18)%nat
  /\ (second = true -> first = true).
Proof.
  rewrite !run_all_tests_exact. intros H1 H2.
  injection H1 as Hfirst <-. injection H2 as Hsecond <-.
  cbn [after self results requests_made] in *.
  pose proof (f_equal (@length _) (run_verdicts_names target (self st) (requests_made st)))
    as Hlen1.
  rewrite length_map in Hlen1. cbn [length] in Hlen1.
  set (vs1 := run_verdicts target (self st) (requests_made st)) in *.
  match type of Hsecond with
  | context [run_verdicts target' ?m ?k] =>
      pose proof (f_equal (@length _) (run_verdicts_names target' m k)) as Hlen2;
      set (vs2 := run_verdicts target' m k) in *
  end.
  rewrite length_map in Hlen2. cbn [length] in Hlen2.
  split.
  - rewrite !length_app. lia.
  - intros ->. apply Nat.eqb_eq in Hsecond.
    rewrite <- Hfirst. apply Nat.eqb_eq.
    rewrite count_passed_app, length_app in Hsecond.
    pose proof (count_passed_le (results (self st) ++ vs1)).
    pose proof (count_passed_le vs2). lia.
Qed.

End Whole.

(* ================================================================== *)
(** * Further properties: the classification rules *)

Lemma demo_verdict_passed (outcome : Result Response) :
  passed (demo_verdict outcome) = true <->
  exists response, outcome = Ok response /\ status_code response = 200.
Proof.
  unfold demo_verdict. destruct outcome as [response|e].
  - destruct (status_code response =? 200) eqn:Hcode.
    + split; [|reflexivity]. intros _. exists response.
      split; [reflexivity | now apply Z.eqb_eq].
    + split; [discriminate|]. intros [r [Hr Hc]]. injection Hr as <-.
      apply Z.eqb_eq in Hc. congruence.
  - split; [discriminate|]. intros [r [Hr _]]. discriminate.
Qed.

Lemma bypass_verdict_failed (i : nat) (outcome : Result Response) :
  passed (bypass_verdict i outcome) = false <-> got_through outcome.
Proof.
  unfold bypass_verdict, got_through. destruct outcome as [response|e].
  - destruct (status_code response =? 200) eqn:Hcode.
    + apply Z.eqb_eq in Hcode.
      destruct (json_ response) as [data|e] eqn:Hjson; cbn [and_then].
      * destruct (py_in "errors" data) as [[|]|e] eqn:Hin.
        -- split; [discriminate|].
           intros (r & d & Hr & _ & Hj & Hd). injection Hr as <-. congruence.
        -- split; [|reflexivity]. intros _. now exists response, data.
        -- split; [discriminate|].
           intros (r & d & Hr & _ & Hj & Hd). injection Hr as <-. congruence.
      * split; [discriminate|].
        intros (r & d & Hr & _ & Hj & _). injection Hr as <-. congruence.
    + split; [discriminate|].
      intros (r & d & Hr & Hc & _). injection Hr as <-.
      apply Z.eqb_eq in Hc. congruence.
  - split; [discriminate|]. intros (r & d & Hr & _). discriminate.
Qed.

Lemma rate_verdict_passed (outcomes : list (Result Response)) :
  passed (rate_verdict outcomes) = true <->
  forall o, In o outcomes -> exists response, o = Ok response.
Proof.
  rewrite <- rapid_statuses_ok_iff. unfold rate_verdict.
  destruct (rapid_statuses outcomes) as [codes|e].
  - destruct (existsb _ codes); split; try reflexivity; intros _; now exists codes.
  - split; [discriminate | intros [codes H]; discriminate].
Qed.

Section Rules.
Context {text : PyText}.

Lemma errors_scan_found (data : json) :
  errors_scan data = Ok (Some true) <->
  exists members errors each,
    data = JDict members
    /\ dict_get "errors" members = Some errors
    /\ py_iter errors = Ok each
    /\ exists error, In error each
       /\ (is_substring "auth" (str_lower (py_str error))
           \/ is_substring "permission" (str_lower (py_str error))).
Proof.
  unfold errors_scan, and_then. split.
  - destruct data as [| | | | |items|members];
      try discriminate;
      try (cbn [py_in py_getitem];
           match goal with
           | |- context [if ?c then _ else _] => destruct c; discriminate
           end).
    cbn [py_in py_getitem].
    destruct (dict_get "errors" members) as [errors|] eqn:Hget; [|discriminate].
    destruct (py_iter errors) as [each|e] eqn:Hiter; [|discriminate].
    destruct (existsb mentions_auth each) eqn:Hany; [|discriminate].
    intros _. apply existsb_exists in Hany. destruct Hany as [error [Hin Herr]].
    exists members, errors, each. repeat split; try assumption.
    exists error. split; [assumption|]. now apply mentions_auth_iff.
  - intros (members & errors & each & -> & Hget & Hiter & error & Hin & Herr).
    cbn [py_in py_getitem]. rewrite Hget, Hiter.
    assert (Hany : existsb mentions_auth each = true).
    { apply existsb_exists. exists error. split; [assumption|].
      now apply mentions_auth_iff. }
    now rewrite Hany.
Qed.

Lemma protected_verdict_passed (i : nat) (outcome : Result Response) :
  passed (protected_verdict i outcome) = true <-> rejected_for_auth outcome.
Proof.
  unfold protected_verdict, rejected_for_auth. destruct outcome as [response|e].
  - destruct (status_code response =? 200) eqn:Hcode.
    + apply Z.eqb_eq in Hcode.
      destruct (json_ response) as [data|e] eqn:Hjson; cbn [and_then].
      * pose proof (errors_scan_found data) as Hscan.
        destruct (errors_scan data) as [[[|]|]|e].
        -- split; [|reflexivity]. intros _.
           destruct (proj1 Hscan eq_refl) as (members & errors & each & -> & H).
           exists response, members, errors, each. tauto.
        -- split; [discriminate|].
           intros (r & members & errors & each & Hr & _ & Hj & H).
           injection Hr as <-. rewrite Hjson in Hj. injection Hj as ->.
           assert (Ok (Some false) = Ok (Some true)); [|discriminate].
           apply Hscan. exists members, errors, each. tauto.
        -- split; [discriminate|].
           intros (r & members & errors & each & Hr & _ & Hj & H).
           injection Hr as <-. rewrite Hjson in Hj. injection Hj as ->.
           assert (@Ok (option bool) None = Ok (Some true)); [|discriminate].
           apply Hscan. exists members, errors, each. tauto.
        -- split; [discriminate|].
           intros (r & members & errors & each & Hr & _ & Hj & H).
           injection Hr as <-. rewrite Hjson in Hj. injection Hj as ->.
           assert (@Raise (option bool) e = Ok (Some true)); [|discriminate].
           apply Hscan. exists members, errors, each. tauto.
      * split; [discriminate|].
        intros (r & members & errors & each & Hr & _ & Hj & _).
        injection Hr as <-. congruence.
    + split; [discriminate|].
      intros (r & members & errors & each & Hr & Hc & _). injection Hr as <-.
      apply Z.eqb_eq in Hc. congruence.
  - split; [discriminate|]. intros (r & ? & ? & ? & Hr & _). discriminate.
Qed.

End Rules.

Section MoreProbes.
Context {text : PyText}.
Variable target : World.

(** X6.  The availability probe looks at the status only: its verdict is
    passed if and only if the request returned status 200, whatever the
    body; it carries the status code of the response it got, and none when
    the request raised. *)
Theorem availability_classification (st : Process) :
  exists v : TestResult,
    _test_graphql_endpoint target st = (Ok tt, record_verdict v 1 st)
    /\ (passed v = true <->
        exists response,
          outcome_of target st availability_query = Ok response
          /\ status_code response = 200)
    /\ (forall response,
          outcome_of target st availability_query = Ok response ->
          response_code v = Some (status_code response))
    /\ (forall e,
          outcome_of target st availability_query = Raise e ->
          response_code v = None
          /\ message v = "Failed to connect to GraphQL endpoint: " ++ exc_text e).
Proof.
  exists (endpoint_verdict (outcome_of target st availability_query)).
  split; [apply _test_graphql_endpoint_runs|].
  split; [apply endpoint_verdict_passed|]. split.
  - intros response ->. unfold endpoint_verdict.
    destruct (status_code response =? 200); reflexivity.
  - intros e ->. split; reflexivity.
Qed.

(** X7.  The health probe passes if and only if the request returned
    status 200 with a body in which ['data' in data] and
    ['health' in data['data']] both hold.  A 200 JSON object without a
    ['data'] member is reported as an unexpected format; one whose ['data']
    member is [null] (or a number or boolean) makes the membership test
    raise, and is reported through the except branch, without the status
    code. *)
Theorem health_classification (st : Process) :
  exists v : TestResult,
    _test_health_endpoint target st = (Ok tt, record_verdict v 1 st)
    /\ (passed v = true <->
        exists response data inner,
          outcome_of target st health_query = Ok response
          /\ status_code response = 200
          /\ json_ response = Ok data
          /\ py_in "data" data = Ok true
          /\ py_getitem data "data" = Ok inner
          /\ py_in "health" inner = Ok true)
    /\ (forall response members,
          outcome_of target st health_query = Ok response ->
          status_code response = 200 ->
          json_ response = Ok (JDict members) ->
          dict_get "data" members = None ->
          v = mk_result "Health Endpoint No Auth Required" false
                "Health endpoint returned unexpected format" (Some 200))
    /\ (forall response members inner,
          outcome_of target st health_query = Ok response ->
          status_code response = 200 ->
          json_ response = Ok (JDict members) ->
          dict_get "data" members = Some inner ->
          not_iterable inner ->
          v = mk_result "Health Endpoint No Auth Required" false
                ("Health endpoint test failed: argument of type '"
                 ++ type_name inner ++ "' is not iterable") None).
Proof.
  exists (health_verdict (outcome_of target st health_query)).
  split; [apply _test_health_endpoint_runs|]. split; [|split].
  - rewrite health_verdict_passed. split.
    + intros (response & data & Hout & Hcode & Hjson & Hshape).
      unfold health_shape, and_then in Hshape.
      destruct (py_in "data" data) as [[|]|e] eqn:Hdata; try discriminate.
      destruct (py_getitem data "data") as [inner|e] eqn:Hinner; [|discriminate].
      now exists response, data, inner.
    + intros (response & data & inner & Hout & Hcode & Hjson & Hdata & Hinner & Hh).
      exists response, data. repeat split; try assumption.
      unfold health_shape, and_then. now rewrite Hdata, Hinner.
  - intros response members -> Hcode Hjson Hget.
    unfold health_verdict, health_shape, and_then.
    rewrite Hcode, Hjson. cbn [Z.eqb Pos.eqb py_in]. now rewrite Hget.
  - intros response members inner -> Hcode Hjson Hget Hinner.
    unfold health_verdict, health_shape, and_then.
    rewrite Hcode, Hjson. cbn [Z.eqb Pos.eqb py_in py_getitem]. rewrite Hget.
    destruct inner; try contradiction; reflexivity.
Qed.

(** X8.  The bypass probe fails open: the verdict of a payload is marked
    failed if and only if the request returned status 200 with a JSON body
    in which ['errors' in data] is false.  A 200 response whose body is not
    JSON is marked passed through the except branch, and so is any 200
    JSON object that has an ['errors'] member, whatever it is bound to. *)
Theorem bypass_classification (i : nat) (query : string) (st : Process) :
  exists v : TestResult,
    bypass_attempt target i query st = (Ok tt, record_verdict v 1 st)
    /\ (passed v = false <-> got_through (outcome_of target st query))
    /\ (forall response e,
          outcome_of target st query = Ok response ->
          status_code response = 200 ->
          json_ response = Raise e ->
          v = mk_result (bypass_name i) true
                ("Bypass attempt caused error (likely blocked): " ++ exc_text e)
                None)
    /\ (forall response members errors,
          outcome_of target st query = Ok response ->
          status_code response = 200 ->
          json_ response = Ok (JDict members) ->
          dict_get "errors" members = Some errors ->
          v = mk_result (bypass_name i) true
                "Potential bypass attempt properly rejected" (Some 200)).
Proof.
  exists (bypass_verdict i (outcome_of target st query)).
  split; [apply bypass_attempt_runs|]. split; [apply bypass_verdict_failed|]. split.
  - intros response e -> Hcode Hjson. unfold bypass_verdict.
    now rewrite Hcode, Hjson.
  - intros response members errors -> Hcode Hjson Hget. unfold bypass_verdict.
    rewrite Hcode, Hjson. cbn [Z.eqb Pos.eqb and_then py_in]. now rewrite Hget.
Qed.

(** X9.  When a protected query is answered with status 200 but the body
    cannot be scanned (it is not JSON, or its ['errors'] member is [null],
    a number or a boolean) the verdict is the one a transport error with
    the same text would give: failed, "Test failed: ...", and no status
    code. *)
Theorem protected_query_unreadable_body
    (i : nat) (query : string) (st : Process) (response : Response) :
  outcome_of target st query = Ok response ->
  status_code response = 200 ->
  (forall e,
     json_ response = Raise e ->
     unauthenticated_request target i query st =
       (Ok tt,
        record_verdict
          (mk_result (protected_name i) false ("Test failed: " ++ exc_text e) None)
          1 st)
     /\ protected_verdict i (Ok response) = protected_verdict i (Raise e))
  /\ (forall members errors,
        json_ response = Ok (JDict members) ->
        dict_get "errors" members = Some errors ->
        not_iterable errors ->
        unauthenticated_request target i query st =
          (Ok tt,
           record_verdict
             (mk_result (protected_name i) false
                ("Test failed: '" ++ type_name errors ++ "' object is not iterable")
                None)
             1 st)).
Proof.
  intros Hout Hcode. split.
  - intros e Hjson. rewrite unauthenticated_request_runs, Hout.
    unfold protected_verdict. rewrite Hcode, Hjson. split; reflexivity.
  - intros members errors Hjson Hget Hbad.
    rewrite unauthenticated_request_runs, Hout.
    unfold protected_verdict, errors_scan, and_then. rewrite Hcode, Hjson.
    cbn [Z.eqb Pos.eqb py_in py_getitem]. rewrite Hget.
    destruct errors; try contradiction; reflexivity.
Qed.

End MoreProbes.

(* ================================================================== *)
(** * Further properties: what a run tells *)



Section Telling.
Context {text : PyText}.
Variable target : World.


End Telling.

Lemma all_nine {A} (P : A -> Prop) (a b c d e f g h i : A) :
  (forall v, In v [a; b; c; d; e; f; g; h; i] -> P v) <->
  P a /\ P b /\ P c /\ P d /\ P e /\ P f /\ P g /\ P h /\ P i.
Proof.
  split.
  - intros H. repeat split; apply H; cbn [In]; tauto.
  - intros (Ha & Hb & Hc & Hd & He & Hf & Hg & Hh & Hi) v Hin. cbn [In] in Hin.
    destruct Hin as [<-|[<-|[<-|[<-|[<-|[<-|[<-|[<-|[<-|[]]]]]]]]]]; assumption.
Qed.

Lemma bypass_verdict_passed (i : nat) (outcome : Result Response) :
  passed (bypass_verdict i outcome) = true <-> ~ got_through outcome.
Proof.
  rewrite <- (bypass_verdict_failed i).
  destruct (passed (bypass_verdict i outcome)); intuition congruence.
Qed.

Section ExitStatus.
Context {text : PyText}.
Variable target : World.

(** X11.  What exit status 0 means.  [main] exits with status 0 if and
    only if: the availability, health and demo-mode requests returned 200
    (the health body with ['health'] under ['data']); each protected query
    was answered 200 with an error that mentions authorization; no bypass
    payload was answered 200 with a body lacking ['errors']; and none of
    the ten requests of the burst raised. *)
Theorem exit_status_zero (args : Args) :
  let ask (k : nat) (query : string) :=
    target k (graphql_request (self (start args)) query) in
  fst (main target args) = 0 <->
  (exists response,
     ask 0%nat availability_query = Ok response /\ status_code response = 200)
  /\ (exists response data,
        ask 1%nat health_query = Ok response /\ status_code response = 200
        /\ json_ response = Ok data /\ health_shape data = Ok true)
  /\ (forall i query, nth_error protected_queries i = Some query ->
                      rejected_for_auth (ask (2 + i)%nat query))
  /\ (exists response,
        ask 4%nat demo_query = Ok response /\ status_code response = 200)
  /\ (forall i query, nth_error bypass_attempts i = Some query ->
                      ~ got_through (ask (5 + i)%nat query))
  /\ (forall k, (k < 10)%nat ->
                exists response, ask (8 + k)%nat demo_query = Ok response).
Proof.
  intros ask.
  destruct (main_summary target args) as [st' [Hmain [_ Hres]]].
  rewrite Hmain. cbn [fst].
  assert (Hzero : (if (count_passed (results (self st'))
                       =? length (results (self st')))%nat then 0 else 1) = 0
                  <-> forall v, In v (results (self st')) -> passed v = true).
  { rewrite <- count_passed_all.
    destruct (count_passed _ =? length _)%nat eqn:E.
    - apply Nat.eqb_eq in E. tauto.
    - apply Nat.eqb_neq in E. split; [discriminate | contradiction]. }
  rewrite Hzero, Hres. clear Hzero Hmain Hres st'.
  unfold run_verdicts.
  cbn [map enumerate combine seq length protected_queries bypass_attempts app
       Nat.add start requests_made].
  rewrite all_nine.
  rewrite endpoint_verdict_passed, health_verdict_passed, !protected_verdict_passed,
    demo_verdict_passed, !bypass_verdict_passed, rate_verdict_passed.
  fold (ask 0%nat availability_query) (ask 1%nat health_query) (ask 4%nat demo_query).
  split.
  - intros (H0 & H1 & H2 & H3 & H4 & H5 & H6 & H7 & H8).
    split; [exact H0|]. split; [exact H1|]. split; [|split; [exact H4|split]].
    + intros i query Hnth. destruct i as [|[|i]]; cbn [nth_error] in Hnth.
      * injection Hnth as <-. exact H2.
      * injection Hnth as <-. exact H3.
      * destruct i; discriminate.
    + intros i query Hnth. destruct i as [|[|[|i]]]; cbn [nth_error] in Hnth.
      * injection Hnth as <-. exact H5.
      * injection Hnth as <-. exact H6.
      * injection Hnth as <-. exact H7.
      * destruct i; discriminate.
    + intros k Hk. apply H8. apply in_burst. exists k. split; [exact Hk|].
      unfold ask. f_equal. lia.
  - intros (H0 & H1 & H2 & H4 & H5 & H8).
    split; [exact H0|]. split; [exact H1|].
    split; [exact (H2 0%nat _ eq_refl)|]. split; [exact (H2 1%nat _ eq_refl)|].
    split; [exact H4|].
    split; [exact (H5 0%nat _ eq_refl)|]. split; [exact (H5 1%nat _ eq_refl)|].
    split; [exact (H5 2%nat _ eq_refl)|].
    intros o Hin. apply in_burst in Hin. destruct Hin as [k [Hk ->]].
    destruct (H8 k Hk) as [response Hr]. exists response.
    rewrite <- Hr. unfold ask. f_equal. lia.
Qed.

End ExitStatus.

(* ================================================================== *)
(** * The further properties at work *)

Lemma only_the_graphql_endpoint_witness :
  agree_at "http://localhost:8080/graphql" (args_timeout default_args)
           down refuses_here
  /\ main (text := ascii_text) down default_args
     = main (text := ascii_text) refuses_here default_args.
Proof.
  assert (H : agree_at "http://localhost:8080/graphql" (args_timeout default_args)
                       down refuses_here)
    by (intros n query; reflexivity).
  split.
  - exact H.
  - exact (proj2 (only_the_graphql_endpoint (text := ascii_text) down refuses_here)
                 default_args H).
Defined.

Lemma requests_per_run_witness :
  requests_made (snd (run_all_tests (text := ascii_text) well_behaved fresh)) = 18%nat.
Proof.
  apply (proj2 (proj2 (proj2 (proj2 (proj2 (proj2
           (requests_per_run (text := ascii_text) well_behaved fresh))))))).
  intros k Hk. eexists. reflexivity.
Defined.

Lemma verdicts_accumulate_witness :
  exists st1 st2,
    run_all_tests (text := ascii_text) down fresh = (Ok false, st1)
    /\ run_all_tests (text := ascii_text) well_behaved st1 = (Ok false, st2)
    /\ length (results (self st2)) = 18%nat.
Proof.
  exists (snd (run_all_tests (text := ascii_text) down fresh)).
  exists (snd (run_all_tests (text := ascii_text) well_behaved
                 (snd (run_all_tests (text := ascii_text) down fresh)))).
  assert (H1 : run_all_tests (text := ascii_text) down fresh
               = (Ok false, snd (run_all_tests (text := ascii_text) down fresh)))
    by (vm_compute; reflexivity).
  assert (H2 : run_all_tests (text := ascii_text) well_behaved
                 (snd (run_all_tests (text := ascii_text) down fresh))
               = (Ok false,
                  snd (run_all_tests (text := ascii_text) well_behaved
                         (snd (run_all_tests (text := ascii_text) down fresh)))))
    by (vm_compute; reflexivity).
  split; [exact H1|]. split; [exact H2|].
  exact (proj1 (verdicts_accumulate (text := ascii_text) down well_behaved
                  fresh _ _ false false H1 H2)).
Defined.

Lemma health_classification_witness :
  exists v,
    _test_health_endpoint (always 200 (Ok null_data_body)) fresh
    = (Ok tt, record_verdict v 1 fresh)
    /\ v = mk_result "Health Endpoint No Auth Required" false
             "Health endpoint test failed: argument of type 'NoneType' is not iterable"
             None.
Proof.
  destruct (health_classification (always 200 (Ok null_data_body)) fresh)
    as (v & Hrun & _ & _ & Hnull).
  exists v. split; [exact Hrun|].
  exact (Hnull {| status_code := 200; json_ := Ok null_data_body |}
               [("data", JNull);
                ("errors", JList [JDict [("message", JStr "boom")]])]
               JNull eq_refl eq_refl eq_refl eq_refl I).
Defined.

Lemma bypass_classification_witness :
  exists v,
    bypass_attempt html_page 0 (nth 0 bypass_attempts "") fresh
    = (Ok tt, record_verdict v 1 fresh)
    /\ v = mk_result "Bypass Attempt 1 Blocked" true
             "Bypass attempt caused error (likely blocked): Expecting value: line 1 column 1 (char 0)"
             None.
Proof.
  destruct (bypass_classification html_page 0 (nth 0 bypass_attempts "") fresh)
    as (v & Hrun & _ & Hhtml & _).
  exists v. split; [exact Hrun|].
  exact (Hhtml _ _ eq_refl eq_refl eq_refl).
Defined.

Lemma protected_query_unreadable_body_witness :
  unauthenticated_request (text := ascii_text)
    (always 200 (Ok null_errors_body)) 0 (nth 0 protected_queries "") fresh
  = (Ok tt,
     record_verdict
       (mk_result "Protected Query 1 Requires Auth" false
          "Test failed: 'NoneType' object is not iterable" None)
       1 fresh).
Proof.
  exact (proj2 (protected_query_unreadable_body (text := ascii_text)
                  (always 200 (Ok null_errors_body)) 0 (nth 0 protected_queries "")
                  fresh {| status_code := 200; json_ := Ok null_errors_body |}
                  eq_refl eq_refl)
               [("data", JDict [("notes", JList [])]); ("errors", JNull)]
               JNull eq_refl eq_refl I).
Defined.

Lemma exit_status_zero_witness :
  fst (main (text := ascii_text) well_behaved default_args) = 0.
Proof.
  apply (proj2 (exit_status_zero (text := ascii_text) well_behaved default_args)).
  split; [eexists; split; reflexivity|].
  split; [do 2 eexists; repeat split; reflexivity|].
  split.
  { intros i query Hnth.
    exists {| status_code := 200; json_ := Ok rejected_body |}.
    exists [("data", JNull);
            ("errors", JList [JDict [("message", JStr "Authentication required")]])].
    exists (JList [JDict [("message", JStr "Authentication required")]]).
    exists [JDict [("message", JStr "Authentication required")]].
    destruct i as [|[|i]]; cbn [nth_error protected_queries] in Hnth.
    - injection Hnth as <-. repeat split.
      exists (JDict [("message", JStr "Authentication required")]).
      split; [now left|]. left. apply contains_iff. reflexivity.
    - injection Hnth as <-. repeat split.
      exists (JDict [("message", JStr "Authentication required")]).
      split; [now left|]. left. apply contains_iff. reflexivity.
    - destruct i; discriminate. }
  split; [eexists; split; reflexivity|].
  split.
  { intros i query Hnth (response & data & Hout & _ & Hjson & Hin).
    destruct i as [|[|[|i]]]; cbn [nth_error bypass_attempts] in Hnth;
      [injection Hnth as <- | injection Hnth as <- | injection Hnth as <-
       | destruct i; discriminate];
      vm_compute in Hout; injection Hout as <-;
      cbn [json_] in Hjson; injection Hjson as <-; discriminate. }
  intros k Hk. eexists. reflexivity.
Defined.

Section ObjectErrors.
Context {text : PyText}.
Variable target : World.

(** X12.  The scan of a protected query iterates over ['errors'] as Python
    does.  When a 200 response binds ['errors'] to a JSON object instead of
    a list, only the keys of that object are looked at: the verdict is
    passed if and only if some key, lower-cased, contains "auth" or
    "permission"; what the keys are bound to is ignored. *)
Theorem object_errors_scans_keys
    (i : nat) (query : string) (st : Process) (response : Response)
    (members inner : list (string * json)) :
  outcome_of target st query = Ok response ->
  status_code response = 200 ->
  json_ response = Ok (JDict members) ->
  dict_get "errors" members = Some (JDict inner) ->
  exists v : TestResult,
    unauthenticated_request target i query st = (Ok tt, record_verdict v 1 st)
    /\ response_code v = Some 200
    /\ (passed v = true <->
        exists key value,
          In (key, value) inner
          /\ (is_substring "auth" (str_lower key)
              \/ is_substring "permission" (str_lower key))).
Proof.
  intros Hout Hcode Hjson Hget.
  exists (protected_verdict i (outcome_of target st query)).
  split; [apply unauthenticated_request_runs|].
  rewrite Hout. unfold protected_verdict, errors_scan, and_then.
  rewrite Hcode, Hjson. cbn [Z.eqb Pos.eqb py_in py_getitem]. rewrite Hget.
  cbn [py_iter].
  destruct (existsb mentions_auth (map (fun kv => JStr (fst kv)) inner)) eqn:Hany.
  - split; [reflexivity|]. split; [|reflexivity]. intros _.
    apply existsb_exists in Hany. destruct Hany as [error [Hin Herr]].
    apply in_map_iff in Hin. destruct Hin as [[key value] [<- Hin]].
    exists key, value. split; [exact Hin|].
    apply mentions_auth_iff in Herr. exact Herr.
  - split; [reflexivity|]. split; [discriminate|].
    intros (key & value & Hin & Hkey).
    assert (Htrue : existsb mentions_auth (map (fun kv => JStr (fst kv)) inner) = true);
      [|congruence].
    apply existsb_exists. exists (JStr key). split.
    + apply in_map_iff. exists (key, value). split; [reflexivity | exact Hin].
    + apply mentions_auth_iff. exact Hkey.
Qed.

End ObjectErrors.

Lemma object_errors_scans_keys_witness :
  exists v,
    unauthenticated_request (text := ascii_text)
      (always 200 (Ok (JDict [("errors", JDict [("message", JStr "Unauthorized")])])))
      0 (nth 0 protected_queries "") fresh
    = (Ok tt, record_verdict v 1 fresh)
    /\ passed v = false.
Proof.
  destruct (object_errors_scans_keys (text := ascii_text)
              (always 200 (Ok (JDict [("errors", JDict [("message", JStr "Unauthorized")])])))
              0 (nth 0 protected_queries "") fresh
              {| status_code := 200;
                 json_ := Ok (JDict [("errors",
                                      JDict [("message", JStr "Unauthorized")])]) |}
              [("errors", JDict [("message", JStr "Unauthorized")])]
              [("message", JStr "Unauthorized")]
              eq_refl eq_refl eq_refl eq_refl)
    as (v & Hrun & _ & Hpass).
  exists v. split; [exact Hrun|].
  destruct (passed v) eqn:Hv; [|reflexivity].
  exfalso. destruct (proj1 Hpass eq_refl) as (key & value & Hin & Hkey).
  destruct Hin as [Hin|[]]. injection Hin as <- <-.
  destruct Hkey as [Hkey|Hkey]; apply contains_iff in Hkey; discriminate.
Defined.
